(** * CricBase: a shallow embedding of the reconciliation, ingestion-gate,
    delivery-validation and aggregation code of [scripts/].

    Python data frames are modelled as lists of records (row order kept),
    pandas merges as list joins, SQLite CHECK constraints with SQL's
    three-valued logic, and the store as explicit state passing. *)

From Stdlib Require Import String Ascii List ZArith Bool Lia.
Import ListNotations.

Local Open Scope Z_scope.

(** Outcome of a loader call: it returns normally, or [_execute_many]
    raises [BuildError] after rolling the batch back. *)
Inductive result (A : Type) : Type :=
| Done (a : A)
| BuildError.
Arguments Done {A} a.
Arguments BuildError {A}.

(** [s in l] for a list of strings. *)
Definition str_in (s : string) (l : list string) : bool :=
  existsb (String.eqb s) l.

(** ** The reconciliation matcher ([cricsheet_loader.MissingMatchesLoader]) *)
Module Recon.

(** A row of the scraped ICC frame, as returned by [ICCScraper._transform_data]. *)
Module Icc.
Record row : Type := mk {
  icc_id : Z;
  start_date : string;
  team1 : string;
  team2 : string;
  toss_result : string;
  match_result : string;
  venue_name : string;
  city : string;
  venue_nation : string
}.
End Icc.

(** A row of [SELECT start_date, team1, team2, toss_result, match_result,
    venue_nation FROM match_summary]. *)
Module Db.
Record row : Type := mk {
  start_date : string;
  team1 : string;
  team2 : string;
  toss_result : string;
  match_result : string;
  venue_nation : string
}.
End Db.

(** [tuple(sorted([str(team1), str(team2)]))]: Python's stable sort of two
    strings puts the second first exactly when it is strictly smaller. *)
Definition match_teams_key (t1 t2 : string) : string * string :=
  if String.ltb t2 t1 then (t2, t1) else (t1, t2).

Definition icc_teams_key (a : Icc.row) : string * string :=
  match_teams_key (Icc.team1 a) (Icc.team2 a).
Definition db_teams_key (b : Db.row) : string * string :=
  match_teams_key (Db.team1 b) (Db.team2 b).

Definition pair_eqb (p q : string * string) : bool :=
  String.eqb (fst p) (fst q) && String.eqb (snd p) (snd q).

(** The column names used as merge keys. *)
Inductive field : Type :=
| start_date_f | match_teams_key_f | match_result_f | toss_result_f | venue_nation_f.

Definition field_eqb (f : field) (a : Icc.row) (b : Db.row) : bool :=
  match f with
  | start_date_f => String.eqb (Icc.start_date a) (Db.start_date b)
  | match_teams_key_f => pair_eqb (icc_teams_key a) (db_teams_key b)
  | match_result_f => String.eqb (Icc.match_result a) (Db.match_result b)
  | toss_result_f => String.eqb (Icc.toss_result a) (Db.toss_result b)
  | venue_nation_f => String.eqb (Icc.venue_nation a) (Db.venue_nation b)
  end.

(** Two rows join on [on=keys] when they agree on every key column. *)
Definition agree_on (keys : list field) (a : Icc.row) (b : Db.row) : bool :=
  forallb (fun f => field_eqb f a b) keys.

Definition join_keys : list field :=
  [start_date_f; match_teams_key_f; match_result_f; toss_result_f; venue_nation_f].

(** Full 5-field equality of a scraped row and a canonical row. *)
Definition five_field_equal (a : Icc.row) (b : Db.row) : Prop :=
  Icc.start_date a = Db.start_date b /\ icc_teams_key a = db_teams_key b /\
  Icc.match_result a = Db.match_result b /\ Icc.toss_result a = Db.toss_result b /\
  Icc.venue_nation a = Db.venue_nation b.

(** The [_merge] column added by [indicator=True]. *)
Inductive indicator : Type := both | left_only | right_only.

Definition indicator_eqb (x y : indicator) : bool :=
  match x, y with
  | both, both | left_only, left_only | right_only, right_only => true
  | _, _ => false
  end.

(** [pd.merge(icc_df, db_df, on=keys, how='left', indicator=True)],
    projected on the left row and the indicator: one row per matching
    right row, or a single [left_only] row. *)
Definition merge_left (keys : list field) (l : list Icc.row) (r : list Db.row)
  : list (Icc.row * indicator) :=
  flat_map (fun a =>
    match filter (agree_on keys a) r with
    | [] => [(a, left_only)]
    | ms => map (fun _ => (a, both)) ms
    end) l.

(** [pd.merge(icc_df, db_df, on=keys, how='right', indicator=True)],
    projected on the right row and the indicator. *)
Definition merge_right (keys : list field) (l : list Icc.row) (r : list Db.row)
  : list (Db.row * indicator) :=
  flat_map (fun b =>
    match filter (fun a => agree_on keys a b) l with
    | [] => [(b, right_only)]
    | ms => map (fun _ => (b, both)) ms
    end) r.

(** An inner [pd.merge]: every pair of rows accepted by [p], in left order. *)
Definition inner_join {A B : Type} (p : A -> B -> bool) (l : list A) (r : list B)
  : list (A * B) :=
  flat_map (fun x => map (pair x) (filter (p x) r)) l.

(** The diagnostic lines logged per joined row (the quoted values). *)
Inductive diagnostic : Type :=
| ResultMismatch (teams : string * string) (date : string) (db_result icc_result : string)
| DateMismatch (teams : string * string) (db_date icc_date : string)
| TossMismatch (teams : string * string) (date : string) (db_toss icc_toss : string)
| NationMismatch (team1_icc team2_icc date : string) (icc_nation db_nation : string).

(** [_log_diagnostics]: tests 1-3, over the canonical rows left unmatched. *)
Definition log_diagnostics (unmatched_db : list Db.row) (icc_df : list Icc.row)
  : list diagnostic :=
  (* Test 1: Result Mismatch *)
  map (fun '(b, a) => ResultMismatch (db_teams_key b) (Db.start_date b)
                        (Db.match_result b) (Icc.match_result a))
      (inner_join (fun b a => agree_on [start_date_f; match_teams_key_f; venue_nation_f] a b)
                  unmatched_db icc_df)
  (* Test 2: Date Mismatch *)
  ++ flat_map (fun '(b, a) =>
        if negb (String.eqb (Db.start_date b) (Icc.start_date a))
        then [DateMismatch (db_teams_key b) (Db.start_date b) (Icc.start_date a)]
        else [])
      (inner_join (fun b a => agree_on [match_teams_key_f; match_result_f] a b)
                  unmatched_db icc_df)
  (* Test 3: Toss Mismatch *)
  ++ flat_map (fun '(b, a) =>
        if negb (String.eqb (Db.toss_result b) (Icc.toss_result a))
        then [TossMismatch (db_teams_key b) (Db.start_date b)
                           (Db.toss_result b) (Icc.toss_result a)]
        else [])
      (inner_join (fun b a => agree_on [start_date_f; match_teams_key_f; match_result_f] a b)
                  unmatched_db icc_df).

(** [_check_nation_mismatches]: test 4, over the scraped rows found missing. *)
Definition check_nation_mismatches (missing : list Icc.row) (db_df : list Db.row)
  : list diagnostic :=
  map (fun '(a, b) => NationMismatch (Icc.team1 a) (Icc.team2 a) (Icc.start_date a)
                        (Icc.venue_nation a) (Db.venue_nation b))
      (inner_join (agree_on [start_date_f; match_teams_key_f; match_result_f; toss_result_f])
                  missing db_df).

(** [_identify_missing_matches]: the missing scraped rows and the log. *)
Definition identify_missing_matches (icc_df : list Icc.row) (db_df : list Db.row)
  : list Icc.row * list diagnostic :=
  match db_df with
  | [] => (icc_df, [])
  | _ :: _ =>
      let merged_diag := merge_right join_keys icc_df db_df in
      let unmatched_db :=
        map fst (filter (fun x => indicator_eqb (snd x) right_only) merged_diag) in
      let diags := match unmatched_db with
                   | [] => []
                   | _ :: _ => log_diagnostics unmatched_db icc_df
                   end in
      let merged := merge_left join_keys icc_df db_df in
      let missing :=
        map fst (filter (fun x => indicator_eqb (snd x) left_only) merged) in
      (missing, diags ++ check_nation_mismatches missing db_df)
  end.

(** [df.drop_duplicates(subset=['icc_id'], keep='first')]. *)
Fixpoint drop_duplicates (seen : list Z) (df : list Icc.row) : list Icc.row :=
  match df with
  | [] => []
  | r :: rest =>
      if existsb (Z.eqb (Icc.icc_id r)) seen
      then drop_duplicates seen rest
      else r :: drop_duplicates (Icc.icc_id r :: seen) rest
  end.

Definition count_id (id : Z) (df : list Icc.row) : nat :=
  length (filter (fun r => Z.eqb (Icc.icc_id r) id) df).

Fixpoint nodup_ids (ids : list Z) : list Z :=
  match ids with
  | [] => []
  | i :: rest => i :: filter (fun j => negb (Z.eqb i j)) (nodup_ids rest)
  end.

(** The ids of the [duplicated(keep=False)] rows, one per [groupby] group;
    each group gets its [DUPLICATE DETECTED] and [Dropping] lines.  (pandas
    visits the groups in id order; only which groups are logged matters
    here.) *)
Definition duplicate_groups (df : list Icc.row) : list Z :=
  nodup_ids (map Icc.icc_id (filter (fun r => Nat.ltb 1 (count_id (Icc.icc_id r) df)) df)).

(** [_handle_icc_duplicates]: the collapsed frame and the logged groups. *)
Definition handle_icc_duplicates (df : list Icc.row) : list Icc.row * list Z :=
  match duplicate_groups df with
  | [] => (df, [])
  | groups => (drop_duplicates [] df, groups)
  end.

(** The two tables the step reads and writes. *)
Record state : Type := mk_state {
  match_summary : list Db.row;
  missing_matches : list Icc.row
}.

Fixpoint nodupb (ids : list Z) : bool :=
  match ids with
  | [] => true
  | i :: rest => negb (existsb (Z.eqb i) rest) && nodupb rest
  end.

(** [_insert_missing_matches] through [_execute_many]: one transaction;
    [icc_id INTEGER PRIMARY KEY] refuses a repeated id, and the rollback
    then leaves the table as it was before [BuildError] is raised.  (The
    NOT NULL text columns are non-null by the row type.) *)
Definition insert_missing_matches (table rows : list Icc.row) : result (list Icc.row) :=
  match rows with
  | [] => Done table
  | _ :: _ =>
      if nodupb (map Icc.icc_id (table ++ rows)) then Done (table ++ rows)
      else BuildError
  end.

(** [update_missing_matches]. *)
Definition update_missing_matches (s : state) (icc_df : list Icc.row) : result state :=
  match icc_df with
  | [] => Done s
  | _ :: _ =>
      let icc_df' := fst (handle_icc_duplicates icc_df) in
      let missing := fst (identify_missing_matches icc_df' (match_summary s)) in
      match missing with
      | [] => Done s
      | _ :: _ =>
          match insert_missing_matches (missing_matches s) missing with
          | Done t => Done (mk_state (match_summary s) t)
          | BuildError => BuildError
          end
      end
  end.

End Recon.

(** ** The incremental ingestion gate ([utils.get_files_to_process]) *)
Module Gate.

(** [str.removesuffix]. *)
Definition removesuffix (s suffix : string) : string :=
  let n := String.length s in
  let m := String.length suffix in
  if Nat.leb m n && String.eqb (substring (n - m) m s) suffix
  then substring 0 (n - m) s
  else s.

(** [get_files_to_process]: [done_ids] is [SELECT match_id FROM matches];
    [json_files] holds [(filename, full_path)] pairs. *)
Definition get_files_to_process (done_ids : list string) (json_files : list (string * string))
  : list (string * string) :=
  filter (fun '(fn, _) => negb (str_in (removesuffix fn ".json") done_ids)) json_files.

(** The identifier the loader stores for a processed file. *)
Definition file_id (f : string * string) : string := removesuffix (fst f) ".json".

End Gate.

(** ** SQL three-valued logic, as SQLite evaluates CHECK constraints and
    CASE conditions: a comparison with NULL is unknown. *)
Module Sql.

Inductive tv : Type := T | F | U.

Definition of_bool (b : bool) : tv := if b then T else F.

Definition and3 (x y : tv) : tv :=
  match x, y with
  | F, _ | _, F => F
  | T, T => T
  | _, _ => U
  end.

Definition or3 (x y : tv) : tv :=
  match x, y with
  | T, _ | _, T => T
  | F, F => F
  | _, _ => U
  end.

Definition is_null {A : Type} (x : option A) : tv :=
  of_bool (match x with None => true | Some _ => false end).
Definition is_not_null {A : Type} (x : option A) : tv :=
  of_bool (match x with None => false | Some _ => true end).

Definition eq_z (x : option Z) (n : Z) : tv :=
  match x with None => U | Some v => of_bool (Z.eqb v n) end.
Definition ge_z (x : option Z) (n : Z) : tv :=
  match x with None => U | Some v => of_bool (Z.leb n v) end.
Definition in_z (x : option Z) (ns : list Z) : tv :=
  match x with None => U | Some v => of_bool (existsb (Z.eqb v) ns) end.
Definition eq_s (x : option string) (s : string) : tv :=
  match x with None => U | Some v => of_bool (String.eqb v s) end.
Definition in_s (x : option string) (ss : list string) : tv :=
  match x with None => U | Some v => of_bool (str_in v ss) end.
Definition eq_ss (x y : option string) : tv :=
  match x, y with Some a, Some b => of_bool (String.eqb a b) | _, _ => U end.
Definition plus_z (x y : option Z) : option Z :=
  match x, y with Some a, Some b => Some (a + b) | _, _ => None end.
Definition eq_zz (x y : option Z) : tv :=
  match x, y with Some a, Some b => of_bool (Z.eqb a b) | _, _ => U end.

(** A CHECK constraint rejects a row only when it evaluates to FALSE. *)
Definition check_ok (c : tv) : bool := match c with F => false | _ => true end.

(** [CASE WHEN c THEN 1 ELSE 0 END]. *)
Definition case_when (c : tv) : Z := match c with T => 1 | _ => 0 end.

End Sql.

(** ** The [deliveries] table ([create_schema.py]) *)
Module Deliveries.
Import Sql.

(** One row of [deliveries], every column as SQLite stores it (NULL = [None]). *)
Record row : Type := mk {
  match_id : string;
  innings : option Z;
  overs : option Z;
  balls : option Z;
  batter_id : option string;
  bowler_id : option string;
  non_striker_id : option string;
  runs_batter : option Z;
  runs_extras : option Z;
  runs_total : option Z;
  runs_batter_non_boundary : option Z;
  wickets : option Z;
  player_out_id : option string;
  how_out : option string;
  fielder1_id : option string;
  fielder2_id : option string;
  fielder3_id : option string;
  wickets2 : option Z;
  player_out2_id : option string;
  how_out2 : option string;
  extras_byes : option Z;
  extras_legbyes : option Z;
  extras_noballs : option Z;
  extras_penalty : option Z;
  extras_wides : option Z;
  review : option Z;
  ump_decision : option string;
  review_by_id : option string;
  review_ump_id : option string;
  review_batter_id : option string;
  review_result : option string;
  umpires_call : option Z;
  powerplay : option Z;
  super_over : option Z
}.

Definition how_out_kinds : list string :=
  ["bowled"; "caught"; "caught and bowled"; "lbw"; "stumped"; "run out"; "hit wicket";
   "obstructing the field"; "hit the ball twice"; "handled the ball"; "timed out";
   "retired hurt"; "retired out"; "retired not out"]%string.

Definition how_out2_kinds : list string :=
  ["timed out"; "retired hurt"; "retired out"; "retired not out"; "run out"]%string.

Definition no_fielder_kinds : list string :=
  ["bowled"; "lbw"; "hit wicket"; "obstructing the field"; "hit the ball twice";
   "handled the ball"; "timed out"; "retired hurt"; "retired out"; "retired not out"]%string.

Definition fielder_kinds : list string :=
  ["caught"; "caught and bowled"; "stumped"; "run out"]%string.

(** [extras_x = 0 OR (extras_x >= 1 AND runs_extras >= 1)]. *)
Definition extras_check (x : option Z) (r : row) : tv :=
  or3 (eq_z x 0) (and3 (ge_z x 1) (ge_z (runs_extras r) 1)).

(** The column and table CHECK constraints, in the order of the DDL. *)
Definition checks (r : row) : list tv :=
  [ ge_z (runs_batter r) 0;
    ge_z (runs_extras r) 0;
    ge_z (runs_total r) 0;
    or3 (is_null (runs_batter_non_boundary r))
        (and3 (in_z (runs_batter_non_boundary r) [0; 1]) (in_z (runs_batter r) [4; 6]));
    in_z (wickets r) [0; 1];
    in_s (how_out r) how_out_kinds;
    or3 (eq_z (wickets2 r) 0) (and3 (eq_z (wickets2 r) 1) (eq_z (wickets r) 1));
    in_s (how_out2 r) how_out2_kinds;
    extras_check (extras_byes r) r;
    extras_check (extras_legbyes r) r;
    extras_check (extras_noballs r) r;
    extras_check (extras_penalty r) r;
    extras_check (extras_wides r) r;
    in_z (review r) [0; 1];
    or3 (is_null (ump_decision r))
        (and3 (in_s (ump_decision r) ["out"; "not out"]%string) (eq_z (review r) 1));
    in_s (review_result r) ["out"; "not out"]%string;
    or3 (is_null (umpires_call r)) (and3 (in_z (umpires_call r) [0; 1]) (eq_z (review r) 1));
    in_z (powerplay r) [0; 1];
    in_z (super_over r) [0; 1];
    (* table constraints *)
    or3 (and3 (is_null (player_out_id r)) (eq_z (wickets r) 0))
        (and3 (is_not_null (player_out_id r)) (eq_z (wickets r) 1));
    or3 (and3 (is_null (fielder1_id r))
              (or3 (eq_z (wickets r) 0) (in_s (how_out r) no_fielder_kinds)))
        (and3 (is_not_null (fielder1_id r)) (in_s (how_out r) fielder_kinds));
    or3 (is_null (fielder2_id r))
        (and3 (and3 (is_not_null (fielder2_id r)) (is_not_null (fielder1_id r)))
              (eq_s (how_out r) "run out"));
    or3 (is_null (fielder3_id r))
        (and3 (and3 (and3 (is_not_null (fielder3_id r)) (is_not_null (fielder2_id r)))
                    (is_not_null (fielder1_id r)))
              (eq_s (how_out r) "run out"));
    or3 (is_null (player_out2_id r))
        (and3 (is_not_null (player_out2_id r)) (eq_z (wickets2 r) 1));
    or3 (is_null (review_batter_id r)) (eq_ss (review_batter_id r) (batter_id r));
    or3 (eq_z (extras_wides r) 0) (eq_z (extras_noballs r) 0);
    eq_zz (runs_total r) (plus_z (runs_batter r) (runs_extras r));
    or3 (and3 (eq_z (wickets r) 1) (is_not_null (player_out_id r)))
        (and3 (eq_z (wickets r) 0) (is_null (player_out_id r)));
    or3 (and3 (and3 (and3 (eq_z (review r) 1) (is_not_null (review_by_id r)))
                    (is_not_null (review_ump_id r)))
              (is_not_null (review_result r)))
        (and3 (and3 (and3 (eq_z (review r) 0) (is_null (review_by_id r)))
                    (is_null (review_ump_id r)))
              (is_null (review_result r)));
    or3 (and3 (is_null (ump_decision r)) (eq_z (review r) 0))
        (and3 (is_not_null (ump_decision r)) (eq_z (review r) 1));
    or3 (and3 (and3 (eq_z (wickets2 r) 1) (is_not_null (player_out2_id r)))
              (is_not_null (how_out2 r)))
        (and3 (and3 (eq_z (wickets2 r) 0) (is_null (player_out2_id r)))
              (is_null (how_out2 r))) ].

(** SQLite accepts the row when no CHECK evaluates to FALSE.  (The foreign
    keys and the two review triggers only restrict identifiers to known
    players, teams and officials; they are not modelled.) *)
Definition accepts (r : row) : bool := forallb check_ok (checks r).

(** [PRIMARY KEY (match_id, innings, overs, balls)]. *)
Definition pk (r : row) : string * option Z * option Z * option Z :=
  (match_id r, innings r, overs r, balls r).

(** SQLite lets NULLs into a non-INTEGER primary key, and they never collide. *)
Definition opt_z_eqb (x y : option Z) : bool :=
  match x, y with
  | Some a, Some b => Z.eqb a b
  | _, _ => false
  end.

Definition pk_eqb (r s : row) : bool :=
  String.eqb (match_id r) (match_id s) && opt_z_eqb (innings r) (innings s)
  && opt_z_eqb (overs r) (overs s) && opt_z_eqb (balls r) (balls s).

Fixpoint pk_distinct (rs : list row) : bool :=
  match rs with
  | [] => true
  | r :: rest => negb (existsb (pk_eqb r) rest) && pk_distinct rest
  end.

End Deliveries.

(** ** From a Cricsheet delivery to a stored row
    ([DeliveriesExtractor.generate_df], [DeliveriesLoader.load_deliveries]) *)
Module Ingest.
Import Deliveries.

(** The JSON objects read by the extractor; an absent or [null] key is [None]. *)
Record fielder_json : Type := mk_fielder {
  fj_name : option string;
  fj_substitute : bool  (* truthiness of ["substitute"] *)
}.

Record wicket_json : Type := mk_wicket {
  wj_player_out : option string;
  wj_kind : option string;
  wj_fielders : option (list fielder_json)
}.

Record review_json : Type := mk_review {
  rj_by : option string;
  rj_umpire : option string;
  rj_decision : option string;
  rj_umpires_call : option bool  (* truthiness of ["umpires_call"] when present *)
}.

Record delivery_json : Type := mk_delivery {
  dj_batter : option string;
  dj_bowler : option string;
  dj_non_striker : option string;
  dj_runs_batter : option Z;
  dj_runs_extras : option Z;
  dj_runs_total : option Z;
  dj_non_boundary : bool;  (* truthiness of ["runs"]["non_boundary"] *)
  dj_wickets : list wicket_json;
  dj_extras_byes : option Z;
  dj_extras_legbyes : option Z;
  dj_extras_noballs : option Z;
  dj_extras_penalty : option Z;
  dj_extras_wides : option Z;
  dj_review : option review_json
}.

(** A dict is truthy when it has a key. *)
Definition wicket_truthy (w : wicket_json) : bool :=
  match wj_player_out w, wj_kind w, wj_fielders w with
  | None, None, None => false
  | _, _, _ => true
  end.

Definition review_truthy (rv : review_json) : bool :=
  match rj_by rv, rj_umpire rv, rj_decision rv, rj_umpires_call rv with
  | None, None, None, None => false
  | _, _, _, _ => true
  end.

(** [info.registry.people]: person name to registry identifier. *)
Definition registry := list (string * string).

(** [registry.get(name)]. *)
Fixpoint reg_get (reg : registry) (name : option string) : option string :=
  match name, reg with
  | None, _ | _, [] => None
  | Some n, (k, v) :: rest => if String.eqb k n then Some v else reg_get rest name
  end.

(** [get_nested_value(delivery, path, 0)]. *)
Definition or_zero (x : option Z) : Z := match x with Some v => v | None => 0 end.

Definition opt_str_eqb (x y : option string) : bool :=
  match x, y with
  | None, None => true
  | Some a, Some b => String.eqb a b
  | _, _ => false
  end.

(** [_get_fielder_id]. *)
Definition get_fielder_id (f : fielder_json) (reg : registry) : option string :=
  if fj_substitute f then Some "substitute"%string
  else match fj_name f with
       | Some n => if String.eqb n "" then None else reg_get reg (Some n)
       | None => None
       end.

(** [get_nested_value(delivery, 'wickets.N')], kept when truthy. *)
Definition wicket_at (d : delivery_json) (n : nat) : option wicket_json :=
  match nth_error (dj_wickets d) n with
  | Some w => if wicket_truthy w then Some w else None
  | None => None
  end.

Definition fielders (w : wicket_json) : list fielder_json :=
  match wj_fielders w with Some fs => fs | None => [] end.

Definition fielder_slot (reg : registry) (w : wicket_json) (n : nat) : option string :=
  match nth_error (fielders w) n with
  | Some f => get_fielder_id f reg
  | None => None
  end.

(** Fielder 1, with the caught-and-bowled fallback to the bowler. *)
Definition fielder1_of (reg : registry) (bowler : option string) (w : wicket_json)
  : option string :=
  let f1 := fielder_slot reg w 0 in
  match f1 with
  | None => if opt_str_eqb (wj_kind w) (Some "caught and bowled"%string) then bowler else None
  | Some _ => f1
  end.

Definition review_at (d : delivery_json) : option review_json :=
  match dj_review d with
  | Some rv => if review_truthy rv then Some rv else None
  | None => None
  end.

(** [_extract_review_info]. *)
Definition by_batting_team (rv : review_json) (batting_team : option string) : bool :=
  opt_str_eqb (rj_by rv) batting_team.

Definition ump_decision_of (rv : review_json) (batting_team : option string) : string :=
  if by_batting_team rv batting_team then "out" else "not out".

Definition review_result_of (rv : review_json) (batting_team : option string) : string :=
  if opt_str_eqb (rj_decision rv) (Some "struck down"%string)
  then ump_decision_of rv batting_team
  else if by_batting_team rv batting_team then "not out" else "out".

Definition review_ump_of (reg : registry) (rv : review_json) : option string :=
  match rj_umpire rv with
  | Some n => if String.eqb n "" then None else reg_get reg (Some n)
  | None => None
  end.

(** The [delivery_dict] built for delivery [k] of over [j] of innings [i],
    one entry per table column; the [review_by_id] slot holds the dict's
    [review_by] team name, which the loader maps to a team id.  The dict's
    one further entry, [fielder_missing], is computed by
    [fielder_missing_of] below and paired with this row in [delivery_dict]. *)
Definition extract_delivery (reg : registry) (match_id : string) (batting_team : option string)
    (i j k : Z) (pp_end_over pp_end_ball : Z) (d : delivery_json) : row :=
  let rb := or_zero (dj_runs_batter d) in
  let bowler := reg_get reg (dj_bowler d) in
  let w1 := wicket_at d 0 in
  let w2 := wicket_at d 1 in
  let rv := review_at d in
  {| match_id := match_id; innings := Some (i + 1); overs := Some (j + 1);
     balls := Some (k + 1);
     batter_id := reg_get reg (dj_batter d);
     bowler_id := bowler;
     non_striker_id := reg_get reg (dj_non_striker d);
     runs_batter := Some rb;
     runs_extras := Some (or_zero (dj_runs_extras d));
     runs_total := Some (or_zero (dj_runs_total d));
     runs_batter_non_boundary :=
       if existsb (Z.eqb rb) [4; 6] then Some (if dj_non_boundary d then 1 else 0) else None;
     wickets := Some (match w1 with Some _ => 1 | None => 0 end);
     player_out_id := match w1 with Some w => reg_get reg (wj_player_out w) | None => None end;
     how_out := match w1 with Some w => wj_kind w | None => None end;
     fielder1_id := match w1 with Some w => fielder1_of reg bowler w | None => None end;
     fielder2_id := match w1 with Some w => fielder_slot reg w 1 | None => None end;
     fielder3_id := match w1 with Some w => fielder_slot reg w 2 | None => None end;
     wickets2 := Some (match w2 with Some _ => 1 | None => 0 end);
     player_out2_id := match w2 with Some w => reg_get reg (wj_player_out w) | None => None end;
     how_out2 := match w2 with Some w => wj_kind w | None => None end;
     extras_byes := Some (or_zero (dj_extras_byes d));
     extras_legbyes := Some (or_zero (dj_extras_legbyes d));
     extras_noballs := Some (or_zero (dj_extras_noballs d));
     extras_penalty := Some (or_zero (dj_extras_penalty d));
     extras_wides := Some (or_zero (dj_extras_wides d));
     review := Some (match rv with Some _ => 1 | None => 0 end);
     ump_decision := match rv with
                     | Some r => Some (ump_decision_of r batting_team) | None => None end;
     review_by_id := match rv with Some r => rj_by r | None => None end;
     review_ump_id := match rv with Some r => review_ump_of reg r | None => None end;
     review_batter_id :=
       match rv with
       | Some r => if by_batting_team r batting_team then reg_get reg (dj_batter d) else None
       | None => None
       end;
     review_result := match rv with
                      | Some r => Some (review_result_of r batting_team) | None => None end;
     umpires_call := match rv with
                     | Some r => Some (match rj_umpires_call r with Some true => 1 | _ => 0 end)
                     | None => None
                     end;
     powerplay := Some (if (j <? pp_end_over) || ((j =? pp_end_over) && (k + 1 <=? pp_end_ball))
                        then 1 else 0);
     super_over := Some (if 2 <=? i then 1 else 0) |}.

(** [delivery_dict['fielder_missing']]: 1 when the first wicket's kind is one
    of ['caught', 'caught and bowled', 'stumped', 'run out'] and no fielder 1
    was found (after the caught-and-bowled fallback), else 0. *)
Definition fielder_missing_of (reg : registry) (bowler : option string)
    (w1 : option wicket_json) : Z :=
  match w1 with
  | Some w =>
      match wj_kind w, fielder1_of reg bowler w with
      | Some kind, None =>
          if existsb (String.eqb kind) ["caught"; "caught and bowled"; "stumped"; "run out"]%string
          then 1 else 0
      | _, _ => 0
      end
  | None => 0
  end.

(** A row of the extractor's DataFrame: the entries named like columns of
    [deliveries], and the [fielder_missing] flag. *)
Record delivery_dict : Type := mk_dict {
  dict_row : row;
  dict_fielder_missing : Z
}.

Definition extract_delivery_dict (reg : registry) (match_id : string)
    (batting_team : option string) (i j k : Z) (pp_end_over pp_end_ball : Z)
    (d : delivery_json) : delivery_dict :=
  mk_dict (extract_delivery reg match_id batting_team i j k pp_end_over pp_end_ball d)
          (fielder_missing_of reg (reg_get reg (dj_bowler d)) (wicket_at d 0)).

(** [pd.to_numeric(col, errors='coerce').fillna(0).astype(int)]. *)
Definition fillna0 (x : option Z) : option Z := Some (or_zero x).

(** The team map ([maps['teams_men']] or [maps['teams_women']]). *)
Fixpoint team_get (team_map : list (string * string)) (name : option string) : option string :=
  match name, team_map with
  | None, _ | _, [] => None
  | Some n, (k, v) :: rest => if String.eqb k n then Some v else team_get rest name
  end.

(** The row tuple [load_deliveries] hands to [INSERT INTO deliveries]. *)
Definition load_row (team_map : list (string * string)) (r : row) : row :=
  {| match_id := match_id r; innings := fillna0 (innings r); overs := fillna0 (overs r);
     balls := fillna0 (balls r); batter_id := batter_id r; bowler_id := bowler_id r;
     non_striker_id := non_striker_id r;
     runs_batter := fillna0 (runs_batter r); runs_extras := fillna0 (runs_extras r);
     runs_total := fillna0 (runs_total r);
     runs_batter_non_boundary := runs_batter_non_boundary r;
     wickets := fillna0 (wickets r); player_out_id := player_out_id r; how_out := how_out r;
     fielder1_id := fielder1_id r; fielder2_id := fielder2_id r; fielder3_id := fielder3_id r;
     wickets2 := fillna0 (wickets2 r); player_out2_id := player_out2_id r;
     how_out2 := how_out2 r;
     extras_byes := fillna0 (extras_byes r); extras_legbyes := fillna0 (extras_legbyes r);
     extras_noballs := fillna0 (extras_noballs r); extras_penalty := fillna0 (extras_penalty r);
     extras_wides := fillna0 (extras_wides r);
     review := review r; ump_decision := ump_decision r;
     review_by_id := team_get team_map (review_by_id r);
     review_ump_id := review_ump_id r; review_batter_id := review_batter_id r;
     review_result := review_result r; umpires_call := umpires_call r;
     powerplay := powerplay r; super_over := super_over r |}.

(** [db_columns] of [load_deliveries]: the columns its INSERT names. *)
Definition db_columns : list string :=
  ["match_id"; "innings"; "overs"; "balls"; "batter_id"; "bowler_id"; "non_striker_id";
   "runs_batter"; "runs_extras"; "runs_total"; "runs_batter_non_boundary"; "wickets";
   "player_out_id"; "how_out"; "fielder1_id"; "fielder2_id"; "fielder3_id"; "fielder_missing";
   "wickets2"; "player_out2_id"; "how_out2"; "extras_byes"; "extras_legbyes";
   "extras_noballs"; "extras_penalty"; "extras_wides"; "review"; "ump_decision";
   "review_by_id"; "review_ump_id"; "review_batter_id"; "review_result"; "umpires_call";
   "powerplay"; "super_over"]%string.

(** The columns declared by [CREATE TABLE deliveries]. *)
Definition deliveries_columns : list string :=
  ["match_id"; "innings"; "overs"; "balls"; "batter_id"; "bowler_id"; "non_striker_id";
   "runs_batter"; "runs_extras"; "runs_total"; "runs_batter_non_boundary"; "wickets";
   "player_out_id"; "how_out"; "fielder1_id"; "fielder2_id"; "fielder3_id";
   "wickets2"; "player_out2_id"; "how_out2"; "extras_byes"; "extras_legbyes";
   "extras_noballs"; "extras_penalty"; "extras_wides"; "review"; "ump_decision";
   "review_by_id"; "review_ump_id"; "review_batter_id"; "review_result"; "umpires_call";
   "powerplay"; "super_over"; "created_at"; "updated_at"]%string.

(** SQLite prepares an INSERT only when the table declares every named column. *)
Definition columns_declared (cols table_cols : list string) : bool :=
  forallb (fun c => existsb (String.eqb c) table_cols) cols.

(** [load_deliveries] through [_execute_many]: an empty frame returns at once;
    otherwise [executemany] runs the INSERT in one transaction.  Preparing
    it fails when a named column is undeclared, and one refused row (a CHECK
    that is FALSE, a repeated primary key) rolls the whole batch back; every
    [sqlite3.Error] is re-raised as [BuildError].  The stored row holds the
    table's columns of the tuple. *)
Definition load_deliveries (team_map : list (string * string)) (table : list row)
    (df : list delivery_dict) : result (list row) :=
  match df with
  | [] => Done table
  | _ :: _ =>
      if negb (columns_declared db_columns deliveries_columns) then BuildError
      else
        let rows := map (fun d => load_row team_map (dict_row d)) df in
        if forallb accepts rows && pk_distinct (table ++ rows) then Done (table ++ rows)
        else BuildError
  end.

End Ingest.

(** ** The legal-ball counts of the [batting_stats] and [bowling_stats] views *)
Module Stats.
Import Sql Deliveries.

Definition sum_z (xs : list Z) : Z := fold_right Z.add 0 xs.

(** A join condition [x = p.identifier] holds (is TRUE). *)
Definition is_id (x : option string) (p : string) : bool :=
  match eq_s x p with T => true | _ => false end.

(** [ballsFaced]: over the rows of [LEFT JOIN deliveries d ON
    (p.identifier = d.batter_id OR p.identifier = d.non_striker_id)],
    [SUM(CASE WHEN d.batter_id = p.identifier AND d.extras_wides = 0
    AND d.super_over = 0 THEN 1 ELSE 0 END)]. *)
Definition balls_faced (p : string) (ds : list row) : Z :=
  sum_z (map (fun d => case_when (and3 (and3 (eq_s (batter_id d) p) (eq_z (extras_wides d) 0))
                                       (eq_z (super_over d) 0)))
             (filter (fun d => is_id (batter_id d) p || is_id (non_striker_id d) p) ds)).

(** [ballsBowledLegal]: over the rows of [JOIN deliveries d ON
    p.identifier = d.bowler_id], [SUM(CASE WHEN d.super_over = 0 AND
    d.extras_wides = 0 AND d.extras_noballs = 0 THEN 1 ELSE 0 END)]. *)
Definition balls_bowled_legal (p : string) (ds : list row) : Z :=
  sum_z (map (fun d => case_when (and3 (and3 (eq_z (super_over d) 0) (eq_z (extras_wides d) 0))
                                       (eq_z (extras_noballs d) 0)))
             (filter (fun d => is_id (bowler_id d) p) ds)).

End Stats.

(** ** Row invariants of the [deliveries] table *)
Module Inv.
Import Deliveries Ingest.

(** [runs_total = runs_batter + runs_extras], all three values present. *)
Definition runs_balanced (r : row) : bool :=
  match runs_total r, runs_batter r, runs_extras r with
  | Some t, Some b, Some e => Z.eqb t (b + e)
  | _, _, _ => false
  end.

Definition is_some {A : Type} (x : option A) : bool :=
  match x with Some _ => true | None => false end.

(** The second-wicket slot is populated: [wickets2 = 1], or a second
    dismissed player or dismissal kind is recorded. *)
Definition second_wicket_populated (r : row) : bool :=
  opt_z_eqb (wickets2 r) (Some 1) || is_some (player_out2_id r) || is_some (how_out2 r).

Definition second_wicket_ok (r : row) : bool :=
  negb (second_wicket_populated r) || opt_z_eqb (wickets r) (Some 1).


End Inv.

(** ** Python exceptions and the outcome of a call that may raise *)
Module Py.

Inductive exn : Type :=
| JSONDecodeError | BuildError | KeyError | ValueError | TypeError.

Inductive outcome (A : Type) : Type :=
| Ok (a : A)
| Raise (e : exn).
Arguments Ok {A} a.
Arguments Raise {A} e.

(** The exceptions [load_all_cricsheet_data] catches per file:
    [except (json.JSONDecodeError, BuildError)]. *)
Definition caught (e : exn) : bool :=
  match e with JSONDecodeError | BuildError => true | _ => false end.

End Py.

(** ** Parsed JSON and [utils.get_nested_value] *)
Module Json.

(** A value of [json.load]: a float is kept as its [str()] text; a dict as
    its (key, value) bindings, keys being distinct. *)
#[warnings="-register-all"]
Inductive json : Type :=
| JNull
| JBool (b : bool)
| JInt (n : Z)
| JFloat (repr : string)
| JStr (s : string)
| JList (xs : list json)
| JDict (kvs : list (string * json)).

(** [dict.get(key)]: [None] when the key is absent. *)
Fixpoint dict_get (kvs : list (string * json)) (k : string) : json :=
  match kvs with
  | [] => JNull
  | (k', v) :: rest => if String.eqb k' k then v else dict_get rest k
  end.

(** [str.split('.')]: the pieces between the dots, empty ones included. *)
Fixpoint split1 (s : string) : string * list string :=
  match s with
  | EmptyString => (EmptyString, [])
  | String c rest =>
      let (w, ws) := split1 rest in
      if Ascii.eqb c "." then (EmptyString, w :: ws) else (String c w, ws)
  end.

Definition split_dot (s : string) : list string :=
  let (w, ws) := split1 s in w :: ws.

(** [int(key)] on a [str]: surrounding whitespace, an optional sign, then
    decimal digits with single underscores between them. *)
Definition is_space (c : ascii) : bool :=
  existsb (Nat.eqb (nat_of_ascii c)) [9; 10; 11; 12; 13; 32; 133; 160]%nat.

Definition digit_val (c : ascii) : option Z :=
  let n := nat_of_ascii c in
  if Nat.leb 48 n && Nat.leb n 57 then Some (Z.of_nat n - 48) else None.

Fixpoint digits (acc : Z) (l : list ascii) : option Z :=
  match l with
  | [] => Some acc
  | c :: rest =>
      match digit_val c with
      | Some d => digits (acc * 10 + d) rest
      | None =>
          if Ascii.eqb c "_" then
            match rest with
            | c' :: rest' =>
                match digit_val c' with
                | Some d => digits (acc * 10 + d) rest'
                | None => None
                end
            | [] => None
            end
          else None
      end
  end.

Definition unsigned (l : list ascii) : option Z :=
  match l with
  | c :: rest => match digit_val c with Some d => digits d rest | None => None end
  | [] => None
  end.

Definition signed (l : list ascii) : option Z :=
  match l with
  | c :: rest =>
      if Ascii.eqb c "+" then unsigned rest
      else if Ascii.eqb c "-" then option_map Z.opp (unsigned rest)
      else unsigned l
  | [] => None
  end.

Fixpoint drop_space (l : list ascii) : list ascii :=
  match l with
  | c :: rest => if is_space c then drop_space rest else l
  | [] => []
  end.

(** [None] is the [ValueError] case. *)
Definition py_int (s : string) : option Z :=
  signed (rev (drop_space (rev (drop_space (list_ascii_of_string s))))).

(** [current[i]] on a list: a negative index counts from the end; [None] is
    the [IndexError] case. *)
Definition list_index (xs : list json) (i : Z) : option json :=
  let n := Z.of_nat (length xs) in
  let j := if i <? 0 then n + i else i in
  if (0 <=? j) && (j <? n) then nth_error xs (Z.to_nat j) else None.

(** The loop of [get_nested_value] over the keys. *)
Fixpoint walk (keys : list string) (current default : json) : json :=
  match keys with
  | [] => current
  | key :: rest =>
      let next :=
        match current with
        | JDict kvs => Some (dict_get kvs key)
        | JList xs => match py_int key with Some i => list_index xs i | None => None end
        | _ => None
        end in
      match next with
      | None | Some JNull => default
      | Some v => walk rest v default
      end
  end.

Definition get_nested_value (data : json) (path : string) (default : json) : json :=
  walk (split_dot path) data default.

(** Python truthiness ([if player_id:]). *)
Definition py_truthy (v : json) : bool :=
  match v with
  | JNull => false
  | JBool b => b
  | JInt n => negb (Z.eqb n 0)
  | JFloat r => negb (String.eqb r "0.0" || String.eqb r "-0.0")
  | JStr s => negb (String.eqb s "")
  | JList xs => match xs with [] => false | _ => true end
  | JDict kvs => match kvs with [] => false | _ => true end
  end.

End Json.

(** ** [DeliveriesExtractor._powerplay] and [DeliveriesExtractor.generate_df] *)
Module Extract.
Import Deliveries Ingest.

(** An element of ["innings"]: its ["team"], [str()] of its
    ["powerplays"][0]["to"] ([None] when missing or null), and the
    ["deliveries"] of each of its ["overs"]. *)
Record inning_json : Type := mk_inning {
  in_team : option string;
  in_pp_to : option string;
  in_overs : list (list delivery_json)
}.

Record match_json : Type := mk_match {
  mj_registry : registry;
  mj_innings : list inning_json
}.

Definition has_dot (s : string) : bool :=
  existsb (Ascii.eqb ".") (list_ascii_of_string s).

(** [_powerplay]: the last powerplay over and ball of innings [innings_idx]. *)
Definition powerplay_end (inning : inning_json) (innings_idx : Z) : Py.outcome (Z * Z) :=
  if 2 <=? innings_idx then Py.Ok (0, 0)
  else
    match in_pp_to inning with
    | None => Py.Raise Py.KeyError
    | Some pp_end_val =>
        if negb (has_dot pp_end_val) then Py.Raise Py.ValueError
        else
          match Json.split_dot pp_end_val with
          | [a; b] =>
              match Json.py_int a, Json.py_int b with
              | Some o, Some k => Py.Ok (o, k)
              | _, _ => Py.Raise Py.ValueError
              end
          | _ => Py.Raise Py.ValueError
          end
    end.

(** [enumerate(xs, start=n)]. *)
Fixpoint enum_from {A : Type} (n : Z) (xs : list A) : list (Z * A) :=
  match xs with
  | [] => []
  | x :: rest => (n, x) :: enum_from (n + 1) rest
  end.

Definition over_rows (reg : registry) (mid : string) (team : option string) (i j : Z)
    (po pb : Z) (over : list delivery_json) : list delivery_dict :=
  map (fun '(k, d) => extract_delivery_dict reg mid team i j k po pb d) (enum_from 0 over).

Definition innings_rows (reg : registry) (mid : string) (i : Z) (inn : inning_json)
    (po pb : Z) : list delivery_dict :=
  flat_map (fun '(j, over) => over_rows reg mid (in_team inn) i j po pb over)
           (enum_from 0 (in_overs inn)).

(** The loop over [enumerate(innings)] from index [i]. *)
Fixpoint generate_from (reg : registry) (mid : string) (i : Z) (inns : list inning_json)
  : Py.outcome (list delivery_dict) :=
  match inns with
  | [] => Py.Ok []
  | inn :: rest =>
      match powerplay_end inn i with
      | Py.Raise e => Py.Raise e
      | Py.Ok (po, pb) =>
          match generate_from reg mid (i + 1) rest with
          | Py.Raise e => Py.Raise e
          | Py.Ok rs => Py.Ok (innings_rows reg mid i inn po pb ++ rs)
          end
      end
  end.

Definition generate_df (m : match_json) (mid : string) : Py.outcome (list delivery_dict) :=
  generate_from (mj_registry m) mid 0 (mj_innings m).

End Extract.

(** ** [MatchPlayersExtractor.generate_df] *)
Module Players.
Import Json.

Record player_row : Type := mk_player_row {
  match_id : string;
  identifier : json;
  team_name : string;
  sex : json
}.

(** A JSON list of strings, the shape Cricsheet gives ["teams"] and each
    ["players"] entry; [None] for any other value, whose iteration by the
    loop is not modelled. *)
Fixpoint strs (xs : list json) : option (list string) :=
  match xs with
  | [] => Some []
  | JStr s :: rest => option_map (cons s) (strs rest)
  | _ :: _ => None
  end.

Definition str_list (v : json) : option (list string) :=
  match v with JList xs => strs xs | _ => None end.

(** The inner loop, over the player names of one team. *)
Definition team_rows (data : json) (mid : string) (sx : json) (team : string)
    (names : list string) : list player_row :=
  flat_map (fun player_name =>
    let player_id := get_nested_value data ("info.registry.people." ++ player_name) JNull in
    if py_truthy player_id then [mk_player_row mid player_id team sx] else [])
    names.

Definition generate_df (data : json) (mid : string) : option (list player_row) :=
  match str_list (get_nested_value data "info.teams" (JList [])) with
  | None => None
  | Some teams =>
      let sx := get_nested_value data "info.gender" JNull in
      fold_right (fun team acc =>
        match str_list (get_nested_value data ("info.players." ++ team) (JList [])), acc with
        | Some names, Some rs => Some (team_rows data mid sx team names ++ rs)
        | _, _ => None
        end) (Some []) teams
  end.

End Players.

(** ** Penalty runs: [MatchesExtractor._extract_other] and the
    [runs_1st_innings] / [runs_2nd_innings] columns of [match_summary] *)
Module Summary.
Import Sql Deliveries Ingest.

(** What [_extract_other] reads of one innings: ["team"] and
    ["penalty_runs"]["pre"] / ["post"] ([None] when absent). *)
Record inning_info : Type := mk_inning_info {
  ii_team : option string;
  ii_pre : option Z;
  ii_post : option Z
}.

Definition add_pens (team1_name : option string) (inn : option inning_info) (acc : Z * Z)
  : Z * Z :=
  match inn with
  | Some ii =>
      match ii_team ii with
      | Some t =>
          if String.eqb t "" then acc
          else
            let p := or_zero (ii_pre ii) + or_zero (ii_post ii) in
            if opt_str_eqb (Some t) team1_name then (fst acc + p, snd acc)
            else (fst acc, snd acc + p)
      | None => acc
      end
  | None => acc
  end.

(** [(team1_prepostpens, team2_prepostpens)]; [team1_name] is
    ["info"]["teams"][0]. *)
Definition extract_pens (team1_name : option string) (inns : list inning_info) : Z * Z :=
  add_pens team1_name (nth_error inns 1) (add_pens team1_name (nth_error inns 0) (0, 0)).

(** SQL [SUM]: NULL over no non-NULL value. *)
Definition sql_sum (xs : list (option Z)) : option Z :=
  fold_right (fun x acc =>
    match x, acc with
    | Some a, Some b => Some (a + b)
    | Some a, None => Some a
    | None, _ => acc
    end) None xs.

(** [COALESCE(ds.runs_nth_raw, 0) + m.teamX_prepostpens], with
    [runs_nth_raw = SUM(CASE WHEN innings = n THEN runs_total ELSE 0 END)]
    over the match's deliveries. *)
Definition innings_runs (n : Z) (mid : string) (ds : list row) (pens : Z) : Z :=
  or_zero (sql_sum (map (fun d => match eq_z (innings d) n with T => runs_total d | _ => Some 0 end)
                        (filter (fun d => String.eqb (match_id d) mid) ds))) + pens.

Definition runs_1st_innings (mid : string) (ds : list row) (team1_pens : Z) : Z :=
  innings_runs 1 mid ds team1_pens.
Definition runs_2nd_innings (mid : string) (ds : list row) (team2_pens : Z) : Z :=
  innings_runs 2 mid ds team2_pens.

End Summary.

(** ** More columns of [bowling_stats] and [batting_stats] *)
Module Stats2.
Import Sql Deliveries Stats.

(** [ballsBowled]: [COUNT(CASE WHEN d.super_over = 0 THEN d.balls ELSE 0 END)]
    over the rows joined on [p.identifier = d.bowler_id]; [COUNT] counts the
    non-NULL values. *)
Definition balls_bowled (p : string) (ds : list row) : Z :=
  Z.of_nat (length (filter (fun d =>
    match (match eq_z (super_over d) 0 with T => balls d | _ => Some 0 end) with
    | Some _ => true
    | None => false
    end) (filter (fun d => is_id (bowler_id d) p) ds))).

(** [p.identifier IN (x, y)]. *)
Definition in2 (p : string) (x y : option string) : tv := or3 (eq_s x p) (eq_s y p).

(** [runOut] of [batting_stats]: over the rows joined on
    [p.identifier = d.batter_id OR p.identifier = d.non_striker_id]. *)
Definition run_out (p : string) (ds : list row) : Z :=
  sum_z (map (fun d => case_when (and3 (and3 (in2 p (player_out_id d) (player_out2_id d))
                                             (or3 (eq_s (how_out d) "run out")
                                                  (eq_s (how_out2 d) "run out")))
                                       (eq_z (super_over d) 0)))
             (filter (fun d => is_id (batter_id d) p || is_id (non_striker_id d) p) ds)).

End Stats2.

(** ** The per-file loop of [load_all_cricsheet_data] *)
Module Pipeline.

(** [str.rfind(c)]: the last index of [c], or -1. *)
Fixpoint rfind_from (c : ascii) (l : list ascii) (i : nat) (best : Z) : Z :=
  match l with
  | [] => best
  | x :: rest => rfind_from c rest (S i) (if Ascii.eqb x c then Z.of_nat i else best)
  end.

Definition rfind (c : ascii) (l : list ascii) : Z := rfind_from c l 0 (-1).

(** [os.path.splitext(p)[0]] (posixpath): the text before the last dot,
    unless only dots precede that dot in the last path component. *)
Definition splitext_root (p : string) : string :=
  let l := list_ascii_of_string p in
  let sep := rfind "/" l in
  let dot := rfind "." l in
  if sep <? dot then
    let start := Z.to_nat (sep + 1) in
    if existsb (fun c => negb (Ascii.eqb c ".")) (firstn (Z.to_nat dot - start) (skipn start l))
    then string_of_list_ascii (firstn (Z.to_nat dot) l)
    else p
  else p.

(** The database as this loop sees it: the [match_id]s of [matches] and
    the other tables ([match_metadata], [match_players], [deliveries]). *)
Record db (R : Type) : Type := mk_db {
  matches : list string;
  others : R
}.
Arguments mk_db {R} matches others.
Arguments matches {R} d.
Arguments others {R} d.

(** One file.  [parse] is [json.load]; [prep] is [matches_ext.generate_df]
    and [load_match] up to its [INSERT] (team, venue and official
    resolution), failing with the exception it raises; the [INSERT] into
    [matches] is refused for a [match_id] already stored (its primary key);
    [rest] runs the metadata, players and deliveries steps, each committing
    on its own, and returns what they committed and the exception that
    stopped them, if any. *)
Definition process_file {D R : Type}
    (parse : string -> Py.outcome D)
    (prep : D -> string -> Py.outcome unit)
    (rest : D -> string -> R -> R * option Py.exn)
    (st : db R) (f : string * string) : db R * option Py.exn :=
  let match_id := splitext_root (fst f) in
  match parse (snd f) with
  | Py.Raise e => (st, Some e)
  | Py.Ok data =>
      match prep data match_id with
      | Py.Raise e => (st, Some e)
      | Py.Ok _ =>
          if str_in match_id (matches st) then (st, Some Py.BuildError)
          else
            let (o, e) := rest data match_id (others st) in
            (mk_db (matches st ++ [match_id]) o, e)
      end
  end.

(** [for filename, file_path in all_files: try ... except (JSONDecodeError,
    BuildError): continue]: a caught exception skips to the next file, any
    other leaves the function. *)
Fixpoint run_files {D R : Type}
    (parse : string -> Py.outcome D)
    (prep : D -> string -> Py.outcome unit)
    (rest : D -> string -> R -> R * option Py.exn)
    (st : db R) (files : list (string * string)) : db R * option Py.exn :=
  match files with
  | [] => (st, None)
  | f :: fs =>
      match process_file parse prep rest st f with
      | (st', None) => run_files parse prep rest st' fs
      | (st', Some e) =>
          if Py.caught e then run_files parse prep rest st' fs else (st', Some e)
      end
  end.

(** The Cricsheet part of [load_all_cricsheet_data]: the gate, then the loop. *)
Definition load_cricsheet {D R : Type}
    (parse : string -> Py.outcome D)
    (prep : D -> string -> Py.outcome unit)
    (rest : D -> string -> R -> R * option Py.exn)
    (st : db R) (all_files : list (string * string)) : db R * option Py.exn :=
  run_files parse prep rest st (Gate.get_files_to_process (matches st) all_files).

End Pipeline.

(** ** Concrete inputs *)
Module Examples.
Import Deliveries Ingest.

Definition reg : registry :=
  [("Bat", "p_bat"); ("NS", "p_ns"); ("Bowl", "p_bowl"); ("F1", "p_f1"); ("F2", "p_f2")]%string.

(** A wicket entry carrying a dismissed player and two fielders but no
    ["kind"] key. *)
Definition wicket_no_kind : wicket_json :=
  mk_wicket (Some "Bat"%string) None
            (Some [mk_fielder (Some "F1"%string) false; mk_fielder (Some "F2"%string) false]).

Definition delivery_no_kind : delivery_json :=
  mk_delivery (Some "Bat"%string) (Some "Bowl"%string) (Some "NS"%string)
              (Some 0) (Some 0) (Some 0) false [wicket_no_kind]
              None None None None None None.

Definition row_no_kind : row :=
  extract_delivery reg "m1" (Some "Team A"%string) 0 0 0 6 6 delivery_no_kind.

(** A no-ball faced by ["p_bat"] in the main innings. *)
Definition noball_row : row :=
  extract_delivery reg "m1" (Some "Team A"%string) 0 0 0 6 6
    (mk_delivery (Some "Bat"%string) (Some "Bowl"%string) (Some "NS"%string)
                 (Some 0) (Some 1) (Some 1) false [] None None (Some 1) None None None).

(** A plain dot ball and a wide. *)
Definition dot_row : row :=
  extract_delivery reg "m1" (Some "Team A"%string) 0 0 1 6 6
    (mk_delivery (Some "Bat"%string) (Some "Bowl"%string) (Some "NS"%string)
                 (Some 0) (Some 0) (Some 0) false [] None None None None None None).

Definition wide_row : row :=
  extract_delivery reg "m1" (Some "Team A"%string) 0 0 2 6 6
    (mk_delivery (Some "Bat"%string) (Some "Bowl"%string) (Some "NS"%string)
                 (Some 0) (Some 1) (Some 1) false [] None None None None (Some 1) None).

(** A delivery whose total disagrees with batter plus extras. *)
Definition unbalanced_row : row :=
  extract_delivery reg "m1" (Some "Team A"%string) 0 0 3 6 6
    (mk_delivery (Some "Bat"%string) (Some "Bowl"%string) (Some "NS"%string)
                 (Some 1) (Some 0) (Some 4) false [] None None None None None None).

Definition icc_a : Recon.Icc.row :=
  Recon.Icc.mk 1 "2024-03-01" "A" "B" "A won the toss" "A won" "Ground" "City" "X".
Definition icc_a_dup : Recon.Icc.row :=
  Recon.Icc.mk 1 "2024-03-02" "A" "B" "A won the toss" "A won" "Ground" "City" "X".
Definition icc_c : Recon.Icc.row :=
  Recon.Icc.mk 2 "2024-04-01" "C" "D" "C won the toss" "D won" "Oval" "Town" "Y".
Definition db_a : Recon.Db.row :=
  Recon.Db.mk "2024-03-01" "B" "A" "A won the toss" "A won" "X".
Definition db_a_other_nation : Recon.Db.row :=
  Recon.Db.mk "2024-03-01" "B" "A" "A won the toss" "A won" "Z".

(** A delivery on which the batter retires out and the non-striker is run out. *)
Definition retired_and_run_out_row : row :=
  extract_delivery reg "m1" (Some "Team A"%string) 0 0 4 6 6
    (mk_delivery (Some "Bat"%string) (Some "Bowl"%string) (Some "NS"%string)
                 (Some 0) (Some 0) (Some 0) false
                 [mk_wicket (Some "Bat"%string) (Some "retired out"%string) None;
                  mk_wicket (Some "NS"%string) (Some "run out"%string) None]
                 None None None None None None).

Definition plain_delivery (batter : string) : delivery_json :=
  mk_delivery (Some batter) (Some "Bowl"%string) (Some "NS"%string)
              (Some 1) (Some 0) (Some 1) false [] None None None None None None.

(** Two innings whose powerplay ends at ["5.6"], then a super over without one. *)
Definition three_innings_match : Extract.match_json :=
  Extract.mk_match reg
    [Extract.mk_inning (Some "Team A"%string) (Some "5.6"%string)
       [[plain_delivery "Bat"; plain_delivery "Bat"]; [plain_delivery "NS"]];
     Extract.mk_inning (Some "Team B"%string) (Some "5.6"%string) [[plain_delivery "Bat"]];
     Extract.mk_inning (Some "Team A"%string) None [[plain_delivery "Bat"]]].

(** A match whose first innings has no ["powerplays"] entry. *)
Definition no_powerplay_match : Extract.match_json :=
  Extract.mk_match reg [Extract.mk_inning (Some "Team A"%string) None [[plain_delivery "Bat"]]].

Definition people_json : Json.json :=
  Json.JDict [("info", Json.JDict [("registry", Json.JDict [("people",
    Json.JDict [("A. Smith", Json.JStr "id_smith"); ("Bell", Json.JStr "id_bell")])])])]%string.

(** Loader steps for the file loop: parsing and preparation succeed; the
    rest of the load either succeeds or raises KeyError. *)
Definition unit_parse (_ : string) : Py.outcome unit := Py.Ok tt.
Definition unit_prep (_ : unit) (_ : string) : Py.outcome unit := Py.Ok tt.
Definition count_rest (_ : unit) (_ : string) (n : nat) : nat * option Py.exn := (S n, None).

(** A delivery whose first wicket entry is an empty dict and whose second is
    a run out. *)
Definition second_only_row : row :=
  extract_delivery reg "m1" (Some "Team A"%string) 0 0 5 6 6
    (mk_delivery (Some "Bat"%string) (Some "Bowl"%string) (Some "NS"%string)
                 (Some 0) (Some 0) (Some 0) false
                 [mk_wicket None None None;
                  mk_wicket (Some "NS"%string) (Some "run out"%string) None]
                 None None None None None None).


End Examples.

(** * Properties *)

Module ReconFacts.
Import Recon.

Lemma ltb_asym (s1 s2 : string) : String.ltb s1 s2 = true -> String.ltb s2 s1 = false.
Proof.
  unfold String.ltb. rewrite (String.compare_antisym s2 s1).
  destruct (String.compare s1 s2); simpl; congruence.
Qed.

Lemma ltb_total (s1 s2 : string) :
  String.ltb s1 s2 = false -> String.ltb s2 s1 = false -> s1 = s2.
Proof.
  unfold String.ltb. rewrite (String.compare_antisym s2 s1).
  destruct (String.compare s1 s2) eqn:E; simpl; try discriminate.
  intros _ _. now apply String.compare_eq_iff.
Qed.

Lemma match_teams_key_swap (t1 t2 : string) :
  match_teams_key t1 t2 = match_teams_key t2 t1.
Proof.
  unfold match_teams_key.
  destruct (String.ltb t2 t1) eqn:E1; destruct (String.ltb t1 t2) eqn:E2; auto.
  - rewrite (ltb_asym _ _ E1) in E2. discriminate.
  - now rewrite (ltb_total _ _ E1 E2).
Qed.

Lemma match_teams_key_cases (t1 t2 : string) :
  match_teams_key t1 t2 = (t1, t2) \/ match_teams_key t1 t2 = (t2, t1).
Proof. unfold match_teams_key. destruct (String.ltb t2 t1); auto. Qed.

Lemma match_teams_key_sorted (t1 t2 : string) :
  String.leb (fst (match_teams_key t1 t2)) (snd (match_teams_key t1 t2)) = true.
Proof.
  unfold match_teams_key, String.leb, String.ltb.
  destruct (String.compare t2 t1) eqn:E; simpl.
  - now rewrite (String.compare_antisym t1 t2), E.
  - now rewrite E.
  - now rewrite (String.compare_antisym t1 t2), E.
Qed.

End ReconFacts.

(** ** C3 *)

(** Claim C3 (amended): the team-pair key is the pair of the two raw team
    names in lexicographic order.  Swapping the teams gives the same key;
    the key is sorted; and two matches have the same key exactly when they
    have the same two names, in either order.  So no case or whitespace
    folding happens, and the date is not part of the key. *)
Theorem match_teams_key_unordered_raw (t1 t2 : string) :
  Recon.match_teams_key t1 t2 = Recon.match_teams_key t2 t1 /\
  String.leb (fst (Recon.match_teams_key t1 t2)) (snd (Recon.match_teams_key t1 t2)) = true /\
  (forall u1 u2 : string,
     Recon.match_teams_key t1 t2 = Recon.match_teams_key u1 u2 <->
     (u1 = t1 /\ u2 = t2) \/ (u1 = t2 /\ u2 = t1)).
Proof.
  split; [apply ReconFacts.match_teams_key_swap|].
  split; [apply ReconFacts.match_teams_key_sorted|].
  intros u1 u2. split.
  - destruct (ReconFacts.match_teams_key_cases t1 t2) as [Ht|Ht];
    destruct (ReconFacts.match_teams_key_cases u1 u2) as [Hu|Hu];
    rewrite Ht, Hu; intros H; injection H as H1 H2; subst; auto.
  - intros [[-> ->]|[-> ->]]; [reflexivity|apply ReconFacts.match_teams_key_swap].
Qed.

(** Claim C3 (counterexample): changing only the case, or adding
    surrounding whitespace, to a team name changes the key. *)
Lemma match_teams_key_case_sensitive :
  Recon.match_teams_key "India Women" "Nepal Women" <>
  Recon.match_teams_key "india women" "Nepal Women" /\
  Recon.match_teams_key "India Women" "Nepal Women" <>
  Recon.match_teams_key " India Women " "Nepal Women".
Proof. vm_compute. split; intro H; discriminate H. Qed.

Lemma str_in_spec (s : string) (l : list string) : str_in s l = true <-> In s l.
Proof.
  unfold str_in. rewrite existsb_exists. split.
  - intros [x [Hx He]]. apply String.eqb_eq in He. now subst.
  - intros H. exists s. split; [exact H|apply String.eqb_refl].
Qed.

(** ** C5 *)

(** Claim C5: the gate returns exactly the discovered files whose name
    without [.json] is not a stored match id; once the ids of the returned
    files are stored, a second run over the same files returns nothing. *)
Theorem get_files_to_process_exact_and_idempotent
    (done_ids : list string) (json_files : list (string * string)) :
  (forall f, In f (Gate.get_files_to_process done_ids json_files) <->
             In f json_files /\ ~ In (Gate.removesuffix (fst f) ".json") done_ids) /\
  Gate.get_files_to_process
    (done_ids ++ map Gate.file_id (Gate.get_files_to_process done_ids json_files))
    json_files = [].
Proof.
  assert (Hmem : forall ids f, In f (Gate.get_files_to_process ids json_files) <->
                 In f json_files /\ ~ In (Gate.removesuffix (fst f) ".json") ids).
  { intros ids [fn path]. unfold Gate.get_files_to_process. rewrite filter_In.
    simpl. rewrite negb_true_iff, <- not_true_iff_false, str_in_spec. tauto. }
  split; [apply Hmem|].
  destruct (Gate.get_files_to_process _ json_files) as [|f fs] eqn:E; [reflexivity|].
  exfalso.
  assert (Hf : In f (Gate.get_files_to_process
                       (done_ids ++ map Gate.file_id (Gate.get_files_to_process done_ids json_files))
                       json_files)) by (rewrite E; left; reflexivity).
  apply Hmem in Hf as [Hin Hnot]. apply Hnot. apply in_or_app. right.
  apply in_map_iff. exists f. split; [reflexivity|]. apply Hmem. split; [exact Hin|].
  intro Hd. apply Hnot. apply in_or_app. left. exact Hd.
Qed.

Module DedupFacts.
Import Recon.

Lemma existsb_Z_In (i : Z) (l : list Z) : existsb (Z.eqb i) l = true <-> In i l.
Proof.
  rewrite existsb_exists. split.
  - intros [x [Hx He]]. apply Z.eqb_eq in He. now subst.
  - intros H. exists i. split; [exact H|apply Z.eqb_refl].
Qed.

Lemma nodupb_spec (l : list Z) : nodupb l = true <-> NoDup l.
Proof.
  induction l as [|i rest IH]; simpl.
  - split; [constructor|reflexivity].
  - rewrite andb_true_iff, negb_true_iff, <- not_true_iff_false, existsb_Z_In, IH.
    split; [intros [H1 H2]; now constructor|intros H; inversion H; auto].
Qed.

Lemma drop_duplicates_sound (seen : list Z) (df : list Icc.row) (r : Icc.row) :
  In r (drop_duplicates seen df) -> In r df /\ ~ In (Icc.icc_id r) seen.
Proof.
  revert seen. induction df as [|a rest IH]; intros seen; simpl; [tauto|].
  destruct (existsb (Z.eqb (Icc.icc_id a)) seen) eqn:E.
  - intros H. apply IH in H. tauto.
  - intros [<-|H].
    + split; [now left|]. rewrite <- existsb_Z_In, E. discriminate.
    + apply IH in H as [H1 H2]. split; [now right|]. intro Hs. apply H2. now right.
Qed.

Lemma drop_duplicates_nodup (seen : list Z) (df : list Icc.row) :
  NoDup (map Icc.icc_id (drop_duplicates seen df)).
Proof.
  revert seen. induction df as [|a rest IH]; intros seen; simpl; [constructor|].
  destruct (existsb (Z.eqb (Icc.icc_id a)) seen); [apply IH|].
  simpl. constructor; [|apply IH].
  intros Hin. apply in_map_iff in Hin as [r [Hr Hin]].
  apply drop_duplicates_sound in Hin as [_ Hn]. apply Hn. left. symmetry. exact Hr.
Qed.

Lemma drop_duplicates_complete (seen : list Z) (df : list Icc.row) (i : Z) :
  In i (map Icc.icc_id df) -> In i seen \/ In i (map Icc.icc_id (drop_duplicates seen df)).
Proof.
  revert seen. induction df as [|a rest IH]; intros seen; simpl; [tauto|].
  intros [<-|H].
  - destruct (existsb (Z.eqb (Icc.icc_id a)) seen) eqn:E.
    + left. now apply existsb_Z_In.
    + right. now left.
  - destruct (existsb (Z.eqb (Icc.icc_id a)) seen) eqn:E; [now apply IH|].
    destruct (IH (Icc.icc_id a :: seen) H) as [[Ha|Hs]|Hd].
    + right. left. exact Ha.
    + now left.
    + right. now right.
Qed.

(** Python's first-match lookup [next(x for x in df if x.icc_id == r.icc_id)]. *)
Lemma drop_duplicates_first (seen : list Z) (df : list Icc.row) (r : Icc.row) :
  In r (drop_duplicates seen df) ->
  find (fun x => Z.eqb (Icc.icc_id x) (Icc.icc_id r)) df = Some r.
Proof.
  revert seen. induction df as [|a rest IH]; intros seen; simpl; [tauto|].
  destruct (existsb (Z.eqb (Icc.icc_id a)) seen) eqn:E.
  - intros H. pose proof (drop_duplicates_sound _ _ _ H) as [_ Hn].
    rewrite (IH _ H). destruct (Z.eqb (Icc.icc_id a) (Icc.icc_id r)) eqn:E2; [|reflexivity].
    apply Z.eqb_eq in E2. exfalso. apply Hn. rewrite <- E2. now apply existsb_Z_In.
  - intros [<-|H]; [now rewrite Z.eqb_refl|].
    pose proof (drop_duplicates_sound _ _ _ H) as [_ Hn].
    rewrite (IH _ H). destruct (Z.eqb (Icc.icc_id a) (Icc.icc_id r)) eqn:E2; [|reflexivity].
    apply Z.eqb_eq in E2. exfalso. apply Hn. now left.
Qed.

Lemma count_id_cons (i : Z) (a : Icc.row) (rest : list Icc.row) :
  count_id i (a :: rest) = ((if Z.eqb (Icc.icc_id a) i then 1 else 0) + count_id i rest)%nat.
Proof. unfold count_id. simpl. destruct (Z.eqb (Icc.icc_id a) i); reflexivity. Qed.

Lemma count_id_pos (i : Z) (df : list Icc.row) :
  In i (map Icc.icc_id df) -> (0 < count_id i df)%nat.
Proof.
  induction df as [|a rest IH]; simpl; [tauto|]. rewrite count_id_cons.
  intros [<-|H]; [rewrite Z.eqb_refl; lia|]. specialize (IH H). lia.
Qed.

Lemma nodup_when_counts_le1 (df : list Icc.row) :
  (forall r, In r df -> (count_id (Icc.icc_id r) df <= 1)%nat) -> NoDup (map Icc.icc_id df).
Proof.
  induction df as [|a rest IH]; intros H; simpl; [constructor|].
  pose proof (H a (or_introl eq_refl)) as Ha. rewrite count_id_cons, Z.eqb_refl in Ha.
  constructor.
  - intros Hin. apply count_id_pos in Hin. lia.
  - apply IH. intros r Hr. specialize (H r (or_intror Hr)). rewrite count_id_cons in H.
    lia.
Qed.

Lemma nodup_ids_nil (ids : list Z) : nodup_ids ids = [] -> ids = [].
Proof. destruct ids; simpl; congruence. Qed.

Lemma nodup_ids_In (ids : list Z) (i : Z) : In i (nodup_ids ids) <-> In i ids.
Proof.
  induction ids as [|j rest IH]; simpl; [tauto|].
  rewrite filter_In, negb_true_iff, IH. split.
  - intros [H|[H _]]; auto.
  - intros [H|H]; [now left|]. destruct (Z.eqb j i) eqn:E.
    + left. now apply Z.eqb_eq.
    + right. now split.
Qed.

Lemma duplicate_groups_In (df : list Icc.row) (i : Z) :
  In i (duplicate_groups df) <-> (1 < count_id i df)%nat.
Proof.
  unfold duplicate_groups. rewrite nodup_ids_In, in_map_iff. split.
  - intros [r [<- Hr]]. apply filter_In in Hr as [_ H]. now apply Nat.ltb_lt.
  - intros H. assert (Hin : In i (map Icc.icc_id df)).
    { destruct (in_dec Z.eq_dec i (map Icc.icc_id df)) as [Hi|Hi]; [exact Hi|].
      exfalso. assert (count_id i df = 0%nat); [|lia].
      clear H. induction df as [|a rest IH]; [reflexivity|]. rewrite count_id_cons.
      simpl in Hi. destruct (Z.eqb (Icc.icc_id a) i) eqn:E.
      - apply Z.eqb_eq in E. tauto.
      - apply IH. tauto. }
    apply in_map_iff in Hin as [r [Hr Hin]]. exists r. split; [exact Hr|].
    apply filter_In. split; [exact Hin|]. rewrite Hr. now apply Nat.ltb_lt.
Qed.

Lemma handle_icc_duplicates_nodup (df : list Icc.row) :
  NoDup (map Icc.icc_id (fst (handle_icc_duplicates df))).
Proof.
  unfold handle_icc_duplicates. destruct (duplicate_groups df) eqn:E; simpl.
  - apply nodup_when_counts_le1. intros r Hr.
    destruct (Nat.le_gt_cases (count_id (Icc.icc_id r) df) 1) as [H|H]; [exact H|].
    exfalso. apply (proj2 (duplicate_groups_In df (Icc.icc_id r))) in H. rewrite E in H.
    exact H.
  - apply drop_duplicates_nodup.
Qed.

Lemma handle_icc_duplicates_sub (df : list Icc.row) (r : Icc.row) :
  In r (fst (handle_icc_duplicates df)) -> In r df.
Proof.
  unfold handle_icc_duplicates. destruct (duplicate_groups df); simpl; [auto|].
  intros H. now apply drop_duplicates_sound in H.
Qed.

Lemma nodup_find_self (df : list Icc.row) (r : Icc.row) :
  NoDup (map Icc.icc_id df) -> In r df ->
  find (fun x => Z.eqb (Icc.icc_id x) (Icc.icc_id r)) df = Some r.
Proof.
  induction df as [|a rest IH]; simpl; [tauto|]. intros Hnd [<-|H].
  - now rewrite Z.eqb_refl.
  - inversion Hnd as [|x l Hn Hnd' [Hx Hl]]. subst.
    destruct (Z.eqb (Icc.icc_id a) (Icc.icc_id r)) eqn:E.
    + apply Z.eqb_eq in E. exfalso. apply Hn. rewrite E. now apply in_map.
    + now apply IH.
Qed.

End DedupFacts.

(** ** C4 *)

(** Claim C4: the collapsed frame holds exactly one row per external id of
    the input; the row kept for an id is the first row of the input with
    that id; and every id carried by two or more rows is logged as a
    duplicate group (and only those ids). *)
Theorem handle_icc_duplicates_keeps_first (df : list Recon.Icc.row) :
  let out := fst (Recon.handle_icc_duplicates df) in
  NoDup (map Recon.Icc.icc_id out) /\
  (forall i, In i (map Recon.Icc.icc_id df) <-> In i (map Recon.Icc.icc_id out)) /\
  (forall r, In r out ->
     find (fun x => Z.eqb (Recon.Icc.icc_id x) (Recon.Icc.icc_id r)) df = Some r) /\
  (forall i, In i (snd (Recon.handle_icc_duplicates df)) <-> (1 < Recon.count_id i df)%nat).
Proof.
  intros out. split; [apply DedupFacts.handle_icc_duplicates_nodup|].
  unfold out, Recon.handle_icc_duplicates.
  destruct (Recon.duplicate_groups df) eqn:E; simpl.
  - split; [tauto|]. split.
    + intros r Hr. apply DedupFacts.nodup_find_self; [|exact Hr].
      pose proof (DedupFacts.handle_icc_duplicates_nodup df) as H.
      unfold Recon.handle_icc_duplicates in H. now rewrite E in H.
    + intros i. rewrite <- DedupFacts.duplicate_groups_In, E. simpl. tauto.
  - split; [|split].
    + intros i. split.
      * intros H. destruct (DedupFacts.drop_duplicates_complete [] df i H) as [[]|H'].
        exact H'.
      * intros H. apply in_map_iff in H as [r [<- Hr]].
        apply DedupFacts.drop_duplicates_sound in Hr as [Hr _]. now apply in_map.
    + intros r Hr. now apply (DedupFacts.drop_duplicates_first []).
    + intros i. rewrite <- DedupFacts.duplicate_groups_In, E. simpl. tauto.
Qed.

Module MergeFacts.
Import Recon.

Lemma filter_nil_iff {A : Type} (p : A -> bool) (l : list A) :
  filter p l = [] <-> forall x, In x l -> p x = false.
Proof.
  induction l as [|a rest IH]; simpl; [split; [tauto|reflexivity]|].
  destruct (p a) eqn:E; split.
  - discriminate.
  - intros H. rewrite (H a (or_introl eq_refl)) in E. discriminate.
  - intros H x [<-|Hx]; [exact E|]. now apply IH.
  - intros H. apply IH. intros x Hx. apply H. now right.
Qed.

Lemma filter_const_nil {A B : Type} (a : A) (i : indicator) (ms : list B) (q : indicator) :
  indicator_eqb i q = false ->
  filter (fun x => indicator_eqb (snd x) q) (map (fun _ => (a, i)) ms) = [].
Proof. intros H. induction ms as [|m rest IH]; simpl; [reflexivity|]. now rewrite H. Qed.

(** The [left_only] rows of the left merge are the left rows without a partner. *)
Lemma merge_left_only (keys : list field) (l : list Icc.row) (r : list Db.row) :
  map fst (filter (fun x => indicator_eqb (snd x) left_only) (merge_left keys l r)) =
  filter (fun a => negb (existsb (agree_on keys a) r)) l.
Proof.
  induction l as [|a rest IH]; [reflexivity|].
  change (merge_left keys (a :: rest) r) with
    (match filter (agree_on keys a) r with
     | [] => [(a, left_only)]
     | ms => map (fun _ => (a, both)) ms
     end ++ merge_left keys rest r).
  rewrite filter_app, map_app, IH.
  replace (filter (fun a0 => negb (existsb (agree_on keys a0) r)) (a :: rest)) with
    (if negb (existsb (agree_on keys a) r)
     then a :: filter (fun a0 => negb (existsb (agree_on keys a0) r)) rest
     else filter (fun a0 => negb (existsb (agree_on keys a0) r)) rest) by reflexivity.
  destruct (filter (agree_on keys a) r) as [|m ms] eqn:E.
  - pose proof (proj1 (filter_nil_iff (agree_on keys a) r) E) as E'.
    assert (Hx : existsb (agree_on keys a) r = false).
    { apply not_true_iff_false. rewrite existsb_exists. intros [x [Hx Hp]].
      rewrite (E' x Hx) in Hp. discriminate. }
    now rewrite Hx.
  - assert (Hx : existsb (agree_on keys a) r = true).
    { apply existsb_exists. exists m. apply filter_In. rewrite E. now left. }
    rewrite Hx. simpl. rewrite filter_const_nil; reflexivity.
Qed.

(** The [right_only] rows of the right merge are the right rows without a partner. *)
Lemma merge_right_only_In (keys : list field) (l : list Icc.row) (r : list Db.row) (b : Db.row) :
  In b (map fst (filter (fun x => indicator_eqb (snd x) right_only) (merge_right keys l r))) <->
  In b r /\ (forall a, In a l -> agree_on keys a b = false).
Proof.
  induction r as [|c rest IH]; simpl; [tauto|].
  change (merge_right keys l (c :: rest)) with
    (match filter (fun a => agree_on keys a c) l with
     | [] => [(c, right_only)]
     | ms => map (fun _ => (c, both)) ms
     end ++ merge_right keys l rest).
  rewrite filter_app, map_app, in_app_iff, IH.
  destruct (filter (fun a => agree_on keys a c) l) as [|m ms] eqn:E.
  - pose proof (proj1 (filter_nil_iff _ _) E) as Hc. simpl. split.
    + intros [[<-|[]]|[H1 H2]]; [split; [now left|exact Hc]|split; [now right|exact H2]].
    + intros [[<-|H1] H2]; [now left; left|right; now split].
  - simpl. rewrite filter_const_nil by reflexivity. simpl. split.
    + intros [[]|[H1 H2]]. split; [now right|exact H2].
    + intros [[<-|H1] H2]; [|right; now split].
      exfalso. assert (Hm : In m (filter (fun a => agree_on keys a c) l)) by (rewrite E; now left).
      apply filter_In in Hm as [Hm Hp]. rewrite (H2 m Hm) in Hp. discriminate.
Qed.

Lemma in_inner_join {A B : Type} (p : A -> B -> bool) (l : list A) (r : list B) (x : A) (y : B) :
  In (x, y) (inner_join p l r) <-> In x l /\ In y r /\ p x y = true.
Proof.
  unfold inner_join. rewrite in_flat_map. split.
  - intros [x' [Hx' Hin]]. apply in_map_iff in Hin as [y' [Heq Hy']].
    injection Heq as -> ->. apply filter_In in Hy'. tauto.
  - intros [Hx [Hy Hp]]. exists x. split; [exact Hx|]. apply in_map_iff.
    exists y. split; [reflexivity|]. now apply filter_In.
Qed.

Lemma pair_eqb_spec (p q : string * string) : pair_eqb p q = true <-> p = q.
Proof.
  destruct p as [p1 p2], q as [q1 q2]. unfold pair_eqb. simpl.
  rewrite andb_true_iff, !String.eqb_eq. split; [intros [-> ->]; reflexivity|].
  intros H. injection H as -> ->. auto.
Qed.

Lemma agree_join_keys (a : Icc.row) (b : Db.row) :
  agree_on join_keys a b = true <-> five_field_equal a b.
Proof.
  unfold agree_on, join_keys, five_field_equal. simpl.
  rewrite !andb_true_iff, !String.eqb_eq, pair_eqb_spec. tauto.
Qed.

(** Keeping a sub-frame keeps its key column free of duplicates. *)
Lemma filter_keeps_key_nodup {A K : Type} (key : A -> K) (keep : A -> bool) (rows : list A) :
  NoDup (map key rows) -> NoDup (map key (filter keep rows)).
Proof.
  induction rows as [|a rest IH]; simpl; [auto|]. intros H. inversion H as [|x y Hn Hnd]; subst.
  destruct (keep a); simpl; [|now apply IH]. constructor; [|now apply IH].
  intros Hin. apply Hn. apply in_map_iff in Hin as [z [Hz Hin]]. apply filter_In in Hin.
  rewrite <- Hz. apply in_map. tauto.
Qed.

Lemma identify_missing_fst (icc_df : list Icc.row) (db_df : list Db.row) :
  db_df <> [] ->
  fst (identify_missing_matches icc_df db_df) =
  filter (fun a => negb (existsb (agree_on join_keys a) db_df)) icc_df.
Proof.
  intros H. destruct db_df as [|b bs]; [congruence|].
  unfold identify_missing_matches. simpl fst. apply merge_left_only.
Qed.

Lemma missing_In (icc_df : list Icc.row) (db_df : list Db.row) (r : Icc.row) :
  In r (filter (fun a => negb (existsb (agree_on join_keys a) db_df)) icc_df) <->
  In r icc_df /\ ~ (exists b, In b db_df /\ five_field_equal r b).
Proof.
  rewrite filter_In, negb_true_iff, <- not_true_iff_false, existsb_exists.
  split; intros [H1 H2]; split; auto; intros [b [Hb Hp]]; apply H2; exists b;
  rewrite agree_join_keys in *; auto.
Qed.

End MergeFacts.

(** ** C1 *)

(** Claim C1: with a non-empty canonical summary set (and the backlog
    table cleared, as [prepare_for_update] and [reset_database] leave it),
    the step succeeds and the backlog afterwards holds exactly the
    deduplicated scraped rows with no 5-field match among the canonical
    rows; a scraped row with a 5-field match (Exact) is not inserted. *)
Theorem update_missing_matches_inserts_missing
    (s : Recon.state) (icc_df : list Recon.Icc.row) :
  Recon.match_summary s <> [] -> Recon.missing_matches s = [] ->
  exists s', Recon.update_missing_matches s icc_df = Done s' /\
    Recon.match_summary s' = Recon.match_summary s /\
    (forall r, In r (Recon.missing_matches s') <->
       In r (fst (Recon.handle_icc_duplicates icc_df)) /\
       ~ (exists b, In b (Recon.match_summary s) /\ Recon.five_field_equal r b)) /\
    (forall r b, In b (Recon.match_summary s) -> Recon.five_field_equal r b ->
       ~ In r (Recon.missing_matches s')).
Proof.
  intros Hdb Hbl.
  assert (Hmain : exists s', Recon.update_missing_matches s icc_df = Done s' /\
    Recon.match_summary s' = Recon.match_summary s /\
    (forall r, In r (Recon.missing_matches s') <->
       In r (filter (fun a => negb (existsb (Recon.agree_on Recon.join_keys a)
                                        (Recon.match_summary s)))
                    (fst (Recon.handle_icc_duplicates icc_df))))).
  { unfold Recon.update_missing_matches.
    destruct icc_df as [|x xs] eqn:Hicc.
    - exists s. split; [reflexivity|]. split; [reflexivity|]. rewrite Hbl. simpl. tauto.
    - rewrite <- Hicc. rewrite (MergeFacts.identify_missing_fst _ _ Hdb).
      destruct (filter _ (fst (Recon.handle_icc_duplicates icc_df))) as [|m ms] eqn:Hm.
      + exists s. split; [reflexivity|]. split; [reflexivity|]. rewrite Hbl. simpl. tauto.
      + unfold Recon.insert_missing_matches. rewrite Hbl. simpl app.
        assert (Hnd : Recon.nodupb (map Recon.Icc.icc_id (m :: ms)) = true).
        { apply DedupFacts.nodupb_spec. rewrite <- Hm.
          apply MergeFacts.filter_keeps_key_nodup, DedupFacts.handle_icc_duplicates_nodup. }
        rewrite Hnd. eexists. split; [reflexivity|]. split; [reflexivity|]. simpl. tauto. }
  destruct Hmain as [s' [Hrun [Hsum Hin]]]. exists s'. split; [exact Hrun|].
  split; [exact Hsum|]. split.
  - intros r. rewrite Hin. apply MergeFacts.missing_In.
  - intros r b Hb Hf Hr. apply Hin, MergeFacts.missing_In in Hr as [_ Hr]. apply Hr.
    now exists b.
Qed.

(** ** C9 *)

(** Claim C9: with no canonical summaries every scraped row is classified
    Missing and nothing is logged; with no scraped rows the step returns
    normally and leaves the state unchanged; and on a first run (both
    tables empty) the step succeeds and the backlog receives every
    deduplicated scraped row. *)
Theorem missing_matches_empty_inputs :
  (forall icc_df, Recon.identify_missing_matches icc_df [] = (icc_df, [])) /\
  (forall s, Recon.update_missing_matches s [] = Done s) /\
  (forall icc_df, Recon.update_missing_matches (Recon.mk_state [] []) icc_df =
                  Done (Recon.mk_state [] (fst (Recon.handle_icc_duplicates icc_df)))).
Proof.
  split; [reflexivity|]. split; [reflexivity|].
  intros icc_df. unfold Recon.update_missing_matches.
  destruct icc_df as [|x xs] eqn:Hicc; [reflexivity|]. rewrite <- Hicc. simpl.
  destruct (fst (Recon.handle_icc_duplicates icc_df)) as [|m ms] eqn:Hm; [reflexivity|].
  unfold Recon.insert_missing_matches. simpl app.
  assert (Hnd : Recon.nodupb (map Recon.Icc.icc_id (m :: ms)) = true).
  { apply DedupFacts.nodupb_spec. rewrite <- Hm.
    apply DedupFacts.handle_icc_duplicates_nodup. }
  now rewrite Hnd.
Qed.

Module DiagFacts.
Import Recon.

Lemma identify_snd (icc_df : list Icc.row) (db_df : list Db.row) :
  db_df <> [] ->
  snd (identify_missing_matches icc_df db_df) =
  log_diagnostics
    (map fst (filter (fun x => indicator_eqb (snd x) right_only)
                     (merge_right join_keys icc_df db_df))) icc_df
  ++ check_nation_mismatches
       (filter (fun a => negb (existsb (agree_on join_keys a) db_df)) icc_df) db_df.
Proof.
  intros H. destruct db_df as [|b bs]; [congruence|].
  unfold identify_missing_matches. cbv zeta. simpl snd.
  rewrite MergeFacts.merge_left_only.
  destruct (map fst _) as [|u us]; reflexivity.
Qed.

Lemma unmatched_iff (icc_df : list Icc.row) (db_df : list Db.row) (b : Db.row) :
  In b (map fst (filter (fun x => indicator_eqb (snd x) right_only)
                        (merge_right join_keys icc_df db_df))) <->
  In b db_df /\ (forall a, In a icc_df -> ~ five_field_equal a b).
Proof.
  rewrite MergeFacts.merge_right_only_In. split; intros [H1 H2]; split; auto.
  - intros a Ha Hf. apply MergeFacts.agree_join_keys in Hf. rewrite (H2 a Ha) in Hf.
    discriminate.
  - intros a Ha. apply not_true_iff_false. intros Hf.
    apply MergeFacts.agree_join_keys in Hf. exact (H2 a Ha Hf).
Qed.

Lemma in_log_diagnostics (U : list Db.row) (icc_df : list Icc.row) (e : diagnostic) :
  In e (log_diagnostics U icc_df) <->
  (exists b a, In b U /\ In a icc_df /\
     agree_on [start_date_f; match_teams_key_f; venue_nation_f] a b = true /\
     e = ResultMismatch (db_teams_key b) (Db.start_date b) (Db.match_result b)
                        (Icc.match_result a)) \/
  (exists b a, In b U /\ In a icc_df /\
     agree_on [match_teams_key_f; match_result_f] a b = true /\
     Icc.start_date a <> Db.start_date b /\
     e = DateMismatch (db_teams_key b) (Db.start_date b) (Icc.start_date a)) \/
  (exists b a, In b U /\ In a icc_df /\
     agree_on [start_date_f; match_teams_key_f; match_result_f] a b = true /\
     Icc.toss_result a <> Db.toss_result b /\
     e = TossMismatch (db_teams_key b) (Db.start_date b) (Db.toss_result b)
                      (Icc.toss_result a)).
Proof.
  unfold log_diagnostics. rewrite !in_app_iff, in_map_iff, !in_flat_map.
  split.
  - intros [[[b a] [He Hin]]|[[[b a] [Hin He]]|[[b a] [Hin He]]]];
    apply MergeFacts.in_inner_join in Hin as [Hb [Ha Hp]].
    + left. exists b, a. auto.
    + right; left. exists b, a. destruct (String.eqb (Db.start_date b) (Icc.start_date a)) eqn:E;
      simpl in He; [contradiction|]. destruct He as [He|[]].
      apply String.eqb_neq in E. repeat split; auto.
    + right; right. exists b, a.
      destruct (String.eqb (Db.toss_result b) (Icc.toss_result a)) eqn:E;
      simpl in He; [contradiction|]. destruct He as [He|[]].
      apply String.eqb_neq in E. repeat split; auto.
  - intros [[b [a [Hb [Ha [Hp He]]]]]|[[b [a [Hb [Ha [Hp [Hd He]]]]]]|[b [a [Hb [Ha [Hp [Hd He]]]]]]]].
    + left. exists (b, a). split; [now rewrite He|]. now apply MergeFacts.in_inner_join.
    + right; left. exists (b, a). split; [now apply MergeFacts.in_inner_join|].
      assert (E : String.eqb (Db.start_date b) (Icc.start_date a) = false)
        by (apply String.eqb_neq; auto).
      rewrite E. simpl. now left.
    + right; right. exists (b, a). split; [now apply MergeFacts.in_inner_join|].
      assert (E : String.eqb (Db.toss_result b) (Icc.toss_result a) = false)
        by (apply String.eqb_neq; auto).
      rewrite E. simpl. now left.
Qed.

Lemma in_check_nation (M : list Icc.row) (db_df : list Db.row) (e : diagnostic) :
  In e (check_nation_mismatches M db_df) <->
  exists a b, In a M /\ In b db_df /\
    agree_on [start_date_f; match_teams_key_f; match_result_f; toss_result_f] a b = true /\
    e = NationMismatch (Icc.team1 a) (Icc.team2 a) (Icc.start_date a)
                       (Icc.venue_nation a) (Db.venue_nation b).
Proof.
  unfold check_nation_mismatches. rewrite in_map_iff. split.
  - intros [[a b] [He Hin]]. apply MergeFacts.in_inner_join in Hin as [Ha [Hb Hp]].
    exists a, b. auto.
  - intros [a [b [Ha [Hb [Hp He]]]]]. exists (a, b). split; [now rewrite He|].
    now apply MergeFacts.in_inner_join.
Qed.

(** Agreeing on date, teams, result and toss but not on all five fields
    means the venue nations differ. *)
Lemma four_agree_nation_differs (a : Icc.row) (b : Db.row) :
  agree_on [start_date_f; match_teams_key_f; match_result_f; toss_result_f] a b = true ->
  ~ five_field_equal a b -> Icc.venue_nation a <> Db.venue_nation b.
Proof.
  unfold agree_on. simpl. rewrite !andb_true_iff, !String.eqb_eq, MergeFacts.pair_eqb_spec.
  intros [H1 [H2 [H3 [H4 _]]]] Hn Hv. apply Hn. unfold five_field_equal. tauto.
Qed.

End DiagFacts.

(** ** C2 *)

(** Claim C2 (code bug): the Result test logs every hit of its join on date,
    team pair and venue nation without comparing the results, unlike the Date
    and Toss tests, which compare the field they drop.  A canonical row and a
    scraped row of the same match that differ only in the toss get a
    [RESULT MISMATCH] quoting the same result on both sides, beside the Toss
    diagnostic; a Result join matching on the toss has no hit for them. *)
Theorem result_mismatch_logged_for_equal_results :
  let a := Recon.Icc.mk 1 "2024-03-01" "A" "B" "B won the toss" "A won" "Ground" "City" "X" in
  let b := Recon.Db.mk "2024-03-01" "A" "B" "A won the toss" "A won" "X" in
  ~ Recon.five_field_equal a b /\
  Recon.agree_on [Recon.start_date_f; Recon.match_teams_key_f; Recon.toss_result_f;
                  Recon.venue_nation_f] a b = false /\
  snd (Recon.identify_missing_matches [a] [b]) =
    [Recon.ResultMismatch ("A", "B")%string "2024-03-01" "A won" "A won";
     Recon.TossMismatch ("A", "B")%string "2024-03-01" "A won the toss" "B won the toss"].
Proof.
  intros a b. split; [|split; [reflexivity|vm_compute; reflexivity]].
  unfold Recon.five_field_equal. intros [_ [_ [_ [Ht _]]]]. discriminate Ht.
Qed.

(** ** Reconciliation diagnostics *)

(** The diagnostics logged by [_identify_missing_matches].  For every
    canonical row with no 5-field match among the scraped rows: a Result
    diagnostic for every scraped row agreeing with it on date, team pair and
    venue nation, whatever the two results (neither result nor toss is
    compared); a Date diagnostic for every scraped row agreeing on team pair
    and result whose date differs; a Toss diagnostic for every scraped row
    agreeing on date, team pair and result whose toss differs.  The Venue
    Nation test runs from the scraped side: for every Missing scraped row and
    every canonical row agreeing on date, team pair, result and toss a
    diagnostic quoting both nations is logged, and those nations differ.
    Conversely, every logged diagnostic arises in one of these four ways. *)
Theorem identify_missing_matches_diagnostics
    (icc_df : list Recon.Icc.row) (db_df : list Recon.Db.row) :
  let log := snd (Recon.identify_missing_matches icc_df db_df) in
  let unmatched b := In b db_df /\ (forall a, In a icc_df -> ~ Recon.five_field_equal a b) in
  let missing a := In a icc_df /\ (forall b, In b db_df -> ~ Recon.five_field_equal a b) in
  (forall b a, unmatched b -> In a icc_df ->
     Recon.agree_on [Recon.start_date_f; Recon.match_teams_key_f; Recon.venue_nation_f] a b = true ->
     In (Recon.ResultMismatch (Recon.db_teams_key b) (Recon.Db.start_date b)
           (Recon.Db.match_result b) (Recon.Icc.match_result a)) log) /\
  (forall b a, unmatched b -> In a icc_df ->
     Recon.agree_on [Recon.match_teams_key_f; Recon.match_result_f] a b = true ->
     Recon.Icc.start_date a <> Recon.Db.start_date b ->
     In (Recon.DateMismatch (Recon.db_teams_key b) (Recon.Db.start_date b)
           (Recon.Icc.start_date a)) log) /\
  (forall b a, unmatched b -> In a icc_df ->
     Recon.agree_on [Recon.start_date_f; Recon.match_teams_key_f; Recon.match_result_f] a b = true ->
     Recon.Icc.toss_result a <> Recon.Db.toss_result b ->
     In (Recon.TossMismatch (Recon.db_teams_key b) (Recon.Db.start_date b)
           (Recon.Db.toss_result b) (Recon.Icc.toss_result a)) log) /\
  (forall a b, missing a -> In b db_df ->
     Recon.agree_on [Recon.start_date_f; Recon.match_teams_key_f; Recon.match_result_f;
                     Recon.toss_result_f] a b = true ->
     In (Recon.NationMismatch (Recon.Icc.team1 a) (Recon.Icc.team2 a) (Recon.Icc.start_date a)
           (Recon.Icc.venue_nation a) (Recon.Db.venue_nation b)) log /\
     Recon.Icc.venue_nation a <> Recon.Db.venue_nation b) /\
  (forall e, In e log ->
     (exists b a, unmatched b /\ In a icc_df /\
        Recon.agree_on [Recon.start_date_f; Recon.match_teams_key_f; Recon.venue_nation_f] a b = true /\
        e = Recon.ResultMismatch (Recon.db_teams_key b) (Recon.Db.start_date b)
              (Recon.Db.match_result b) (Recon.Icc.match_result a)) \/
     (exists b a, unmatched b /\ In a icc_df /\
        Recon.agree_on [Recon.match_teams_key_f; Recon.match_result_f] a b = true /\
        Recon.Icc.start_date a <> Recon.Db.start_date b /\
        e = Recon.DateMismatch (Recon.db_teams_key b) (Recon.Db.start_date b)
              (Recon.Icc.start_date a)) \/
     (exists b a, unmatched b /\ In a icc_df /\
        Recon.agree_on [Recon.start_date_f; Recon.match_teams_key_f; Recon.match_result_f] a b = true /\
        Recon.Icc.toss_result a <> Recon.Db.toss_result b /\
        e = Recon.TossMismatch (Recon.db_teams_key b) (Recon.Db.start_date b)
              (Recon.Db.toss_result b) (Recon.Icc.toss_result a)) \/
     (exists a b, missing a /\ In b db_df /\
        Recon.agree_on [Recon.start_date_f; Recon.match_teams_key_f; Recon.match_result_f;
                        Recon.toss_result_f] a b = true /\
        Recon.Icc.venue_nation a <> Recon.Db.venue_nation b /\
        e = Recon.NationMismatch (Recon.Icc.team1 a) (Recon.Icc.team2 a)
              (Recon.Icc.start_date a) (Recon.Icc.venue_nation a) (Recon.Db.venue_nation b))).
Proof.
  intros log unmatched missing.
  assert (Hcase : db_df = [] \/ db_df <> []) by (destruct db_df; [left|right]; congruence).
  destruct Hcase as [Hnil|Hne].
  { subst db_df. unfold log, unmatched, missing. simpl.
    repeat split; intros; simpl in *; tauto. }
  assert (Hlog : forall e, In e log <->
            In e (Recon.log_diagnostics
                    (map fst (filter (fun x => Recon.indicator_eqb (snd x) Recon.right_only)
                                     (Recon.merge_right Recon.join_keys icc_df db_df))) icc_df) \/
            In e (Recon.check_nation_mismatches
                    (filter (fun a => negb (existsb (Recon.agree_on Recon.join_keys a) db_df))
                            icc_df) db_df)).
  { intros e. unfold log. rewrite (DiagFacts.identify_snd _ _ Hne). apply in_app_iff. }
  assert (Hmiss : forall a, In a (filter (fun a => negb (existsb (Recon.agree_on Recon.join_keys a)
                                                         db_df)) icc_df) <-> missing a).
  { intros a. rewrite MergeFacts.missing_In. unfold missing. split.
    - intros [H1 H2]. split; [exact H1|]. intros b Hb Hf. apply H2. now exists b.
    - intros [H1 H2]. split; [exact H1|]. intros [b [Hb Hf]]. exact (H2 b Hb Hf). }
  split; [|split; [|split; [|split]]].
  - intros b a Hb Ha Hp. apply Hlog. left. apply DiagFacts.in_log_diagnostics. left.
    exists b, a. split; [now apply DiagFacts.unmatched_iff|auto].
  - intros b a Hb Ha Hp Hd. apply Hlog. left. apply DiagFacts.in_log_diagnostics. right; left.
    exists b, a. split; [now apply DiagFacts.unmatched_iff|auto].
  - intros b a Hb Ha Hp Hd. apply Hlog. left. apply DiagFacts.in_log_diagnostics. right; right.
    exists b, a. split; [now apply DiagFacts.unmatched_iff|auto].
  - intros a b Ha Hb Hp. split.
    + apply Hlog. right. apply DiagFacts.in_check_nation. exists a, b.
      split; [now apply Hmiss|auto].
    + apply DiagFacts.four_agree_nation_differs; [exact Hp|]. destruct Ha as [_ Ha].
      exact (Ha b Hb).
  - intros e He. apply Hlog in He as [He|He].
    + apply DiagFacts.in_log_diagnostics in He
        as [[b [a [Hb [Ha [Hp He]]]]]|[[b [a [Hb [Ha [Hp [Hd He]]]]]]|[b [a [Hb [Ha [Hp [Hd He]]]]]]]];
      apply DiagFacts.unmatched_iff in Hb.
      * left. exists b, a. auto.
      * right; left. exists b, a. auto.
      * right; right; left. exists b, a. auto.
    + apply DiagFacts.in_check_nation in He as [a [b [Ha [Hb [Hp He]]]]].
      apply Hmiss in Ha. right; right; right. exists a, b.
      split; [exact Ha|]. split; [exact Hb|]. split; [exact Hp|]. split; [|exact He].
      apply DiagFacts.four_agree_nation_differs; [exact Hp|].
      destruct Ha as [_ Ha]. exact (Ha b Hb).
Qed.

(** ** The deliveries load: facts shared by C6, C7 and C10 *)
Module LoadFacts.
Import Sql Deliveries Ingest.

Lemma load_Done (tm : list (string * string)) (tbl : list row) (df : list delivery_dict)
    (tbl' : list row) :
  load_deliveries tm tbl df = Done tbl' ->
  tbl' = tbl ++ map (fun d => load_row tm (dict_row d)) df /\
  (forall d, In d df -> accepts (load_row tm (dict_row d)) = true).
Proof.
  destruct df as [|d0 ds]; unfold load_deliveries.
  - intros H. inversion H. rewrite app_nil_r. split; [reflexivity|intros _ []].
  - destruct (negb (columns_declared db_columns deliveries_columns)); [discriminate|].
    destruct (forallb accepts (map (fun d => load_row tm (dict_row d)) (d0 :: ds))
              && pk_distinct (tbl ++ map (fun d => load_row tm (dict_row d)) (d0 :: ds))) eqn:E;
      [|discriminate].
    intros H. inversion H; subst. split; [reflexivity|].
    apply andb_true_iff in E as [E _]. rewrite forallb_forall in E.
    intros d Hd. apply E. exact (in_map (fun d => load_row tm (dict_row d)) _ _ Hd).
Qed.

Lemma load_rejects (tm : list (string * string)) (tbl : list row) (df : list delivery_dict)
    (d : delivery_dict) :
  In d df -> accepts (load_row tm (dict_row d)) = false -> load_deliveries tm tbl df = BuildError.
Proof.
  intros Hd Ha. destruct (load_deliveries tm tbl df) as [tbl'|] eqn:E; [|reflexivity].
  apply load_Done in E as [_ H]. rewrite (H d Hd) in Ha. discriminate.
Qed.

(** The INSERT names [fielder_missing], which the DDL does not declare. *)
Lemma columns_undeclared : columns_declared db_columns deliveries_columns = false.
Proof. reflexivity. Qed.


Lemma accepts_nth (r : row) (n : nat) :
  accepts r = true -> check_ok (nth n (checks r) T) = true.
Proof.
  unfold accepts. intros H. rewrite forallb_forall in H.
  destruct (Nat.lt_ge_cases n (length (checks r))) as [Hl|Hl].
  - apply H, nth_In, Hl.
  - rewrite nth_overflow by exact Hl. reflexivity.
Qed.

Lemma nth_not_ok (r : row) (n : nat) :
  check_ok (nth n (checks r) T) = false -> accepts r = false.
Proof.
  intros H. destruct (accepts r) eqn:E; [|reflexivity].
  rewrite (accepts_nth r n E) in H. discriminate.
Qed.

Lemma load_Done_table (P : row -> bool) (tm : list (string * string)) (tbl : list row)
    (df : list delivery_dict) (tbl' : list row) :
  (forall d, accepts (load_row tm d) = true -> P (load_row tm d) = true) ->
  forallb P tbl = true -> load_deliveries tm tbl df = Done tbl' -> forallb P tbl' = true.
Proof.
  intros HP Ht H. apply load_Done in H as [-> Ha].
  rewrite forallb_app, Ht. simpl. rewrite forallb_forall. intros r Hr.
  apply in_map_iff in Hr as [d [<- Hd]]. now apply HP, Ha.
Qed.

End LoadFacts.

Module InvFacts.
Import Sql Deliveries Ingest.

Lemma runs_balanced_load_row (tm : list (string * string)) (d : row) :
  Inv.runs_balanced (load_row tm d) =
  Z.eqb (or_zero (runs_total d)) (or_zero (runs_batter d) + or_zero (runs_extras d)).
Proof. reflexivity. Qed.

(** The 27th CHECK of the DDL is the runs equation. *)
Lemma runs_check_load_row (tm : list (string * string)) (d : row) :
  nth 26 (checks (load_row tm d)) T = of_bool (Inv.runs_balanced (load_row tm d)).
Proof. reflexivity. Qed.

Lemma runs_balanced_of_accepts (tm : list (string * string)) (d : row) :
  accepts (load_row tm d) = true -> Inv.runs_balanced (load_row tm d) = true.
Proof.
  intros H. apply (LoadFacts.accepts_nth _ 26) in H. rewrite runs_check_load_row in H.
  destruct (Inv.runs_balanced (load_row tm d)); [reflexivity|discriminate].
Qed.

Lemma second_wicket_ok_of_accepts (tm : list (string * string)) (d : row) :
  accepts (load_row tm d) = true -> Inv.second_wicket_ok (load_row tm d) = true.
Proof.
  intros H. pose proof (LoadFacts.accepts_nth _ 6 H) as H6.
  pose proof (LoadFacts.accepts_nth _ 30 H) as H30. clear H.
  unfold Inv.second_wicket_ok, Inv.second_wicket_populated. simpl in *.
  destruct (Z.eqb_spec (or_zero (wickets2 d)) 1) as [E1|E1];
  destruct (Z.eqb_spec (or_zero (wickets2 d)) 0) as [E0|E0]; try lia;
  destruct (Z.eqb (or_zero (wickets d)) 1);
  destruct (player_out2_id d); destruct (how_out2 d); simpl in *;
  try reflexivity; discriminate.
Qed.

End InvFacts.

(** ** C6 *)

(** Claim C6: every delivery row stored by [load_deliveries] satisfies
    [runs_total = runs_batter + runs_extras] (the DDL's CHECK): starting from
    a table whose rows satisfy it, a successful load leaves only such rows,
    and a batch containing a delivery whose (zero-filled) total differs from
    batter runs plus extras is refused as a whole, nothing being stored. *)
Theorem load_deliveries_runs_balanced (tm : list (string * string))
    (tbl : list Deliveries.row) (df : list Ingest.delivery_dict) :
  forallb Inv.runs_balanced tbl = true ->
  (forall tbl', Ingest.load_deliveries tm tbl df = Done tbl' ->
     forallb Inv.runs_balanced tbl' = true) /\
  (forall d, In d df ->
     Ingest.or_zero (Deliveries.runs_total (Ingest.dict_row d))
       <> Ingest.or_zero (Deliveries.runs_batter (Ingest.dict_row d))
          + Ingest.or_zero (Deliveries.runs_extras (Ingest.dict_row d)) ->
     Ingest.load_deliveries tm tbl df = BuildError).
Proof.
  intros Ht. split.
  - intros tbl'. apply LoadFacts.load_Done_table; [|exact Ht].
    apply InvFacts.runs_balanced_of_accepts.
  - intros d Hd Hne. apply (LoadFacts.load_rejects tm tbl df d Hd).
    destruct (Deliveries.accepts (Ingest.load_row tm (Ingest.dict_row d))) eqn:E; [|reflexivity].
    apply InvFacts.runs_balanced_of_accepts in E.
    rewrite InvFacts.runs_balanced_load_row in E. apply Z.eqb_eq in E. contradiction.
Qed.

Lemma load_deliveries_runs_balanced_witness :
  forallb Inv.runs_balanced [Ingest.load_row [] Examples.dot_row] = true /\
  Ingest.load_deliveries [] [Ingest.load_row [] Examples.dot_row]
    [Ingest.mk_dict Examples.wide_row 0; Ingest.mk_dict Examples.unbalanced_row 0] = BuildError.
Proof.
  assert (Ht : forallb Inv.runs_balanced [Ingest.load_row [] Examples.dot_row] = true)
    by reflexivity.
  split; [exact Ht|].
  apply (proj2 (load_deliveries_runs_balanced [] [Ingest.load_row [] Examples.dot_row]
                  [Ingest.mk_dict Examples.wide_row 0; Ingest.mk_dict Examples.unbalanced_row 0] Ht)
               (Ingest.mk_dict Examples.unbalanced_row 0)).
  - right; left; reflexivity.
  - vm_compute. discriminate.
Defined.

(** ** C10 *)

(** Claim C10: every delivery row stored by [load_deliveries] records a
    second wicket ([wickets2 = 1], a second dismissed player or a second
    dismissal kind) only when it records a first wicket ([wickets = 1]):
    starting from a table whose rows satisfy this, a successful load leaves
    only such rows, and a batch with a delivery violating it is refused as a
    whole. *)
Theorem load_deliveries_second_wicket (tm : list (string * string))
    (tbl : list Deliveries.row) (df : list Ingest.delivery_dict) :
  forallb Inv.second_wicket_ok tbl = true ->
  (forall tbl', Ingest.load_deliveries tm tbl df = Done tbl' ->
     forallb Inv.second_wicket_ok tbl' = true) /\
  (forall d, In d df -> Inv.second_wicket_ok (Ingest.load_row tm (Ingest.dict_row d)) = false ->
     Ingest.load_deliveries tm tbl df = BuildError).
Proof.
  intros Ht. split.
  - intros tbl'. apply LoadFacts.load_Done_table; [|exact Ht].
    apply InvFacts.second_wicket_ok_of_accepts.
  - intros d Hd Hne. apply (LoadFacts.load_rejects tm tbl df d Hd).
    destruct (Deliveries.accepts (Ingest.load_row tm (Ingest.dict_row d))) eqn:E; [|reflexivity].
    apply InvFacts.second_wicket_ok_of_accepts in E. congruence.
Qed.

Lemma load_deliveries_second_wicket_witness :
  forallb Inv.second_wicket_ok [Ingest.load_row [] Examples.retired_and_run_out_row] = true /\
  Inv.second_wicket_ok (Ingest.load_row [] Examples.second_only_row) = false /\
  Ingest.load_deliveries [] [Ingest.load_row [] Examples.retired_and_run_out_row]
    [Ingest.mk_dict Examples.second_only_row 0] = BuildError.
Proof.
  assert (Ht : forallb Inv.second_wicket_ok [Ingest.load_row [] Examples.retired_and_run_out_row]
               = true) by reflexivity.
  assert (Hs : Inv.second_wicket_ok (Ingest.load_row [] Examples.second_only_row) = false)
    by reflexivity.
  split; [exact Ht|]. split; [exact Hs|].
  exact (proj2 (load_deliveries_second_wicket [] _ [Ingest.mk_dict Examples.second_only_row 0] Ht)
           (Ingest.mk_dict Examples.second_only_row 0) (or_introl eq_refl) Hs).
Defined.

(** ** C7 *)



Module StatsFacts.
Import Sql Deliveries Stats.

Lemma and3_T (x y : tv) : and3 x y = T <-> x = T /\ y = T.
Proof. destruct x, y; simpl; intuition congruence. Qed.

Lemma case_when_not_T (c : tv) : c <> T -> case_when c = 0.
Proof. destruct c; simpl; congruence. Qed.

Lemma eq_z_0_T (o : option Z) : eq_z o 0 = T <-> o = Some 0.
Proof.
  destruct o as [v|]; simpl; [|split; discriminate].
  destruct (Z.eqb_spec v 0); simpl; split; congruence.
Qed.

Lemma sum_z_cons (x : Z) (xs : list Z) : sum_z (x :: xs) = x + sum_z xs.
Proof. reflexivity. Qed.

End StatsFacts.

(** ** C8 *)

(** Claim C8 (counterexample): a no-ball faced by the striker in the main
    innings counts towards the batting [ballsFaced] of the [batting_stats]
    view, while the bowling [ballsBowledLegal] leaves it out. *)
Lemma noball_counts_as_ball_faced :
  Deliveries.extras_noballs Examples.noball_row = Some 1 /\
  Stats.balls_faced "p_bat" [Examples.noball_row] = 1 /\
  Stats.balls_bowled_legal "p_bowl" [Examples.noball_row] = 0.
Proof. vm_compute. repeat split. Qed.

(** Claim C8 (amended): the bowling legal-balls count (economy denominator)
    counts a delivery only when [extras_wides = 0] and [extras_noballs = 0]
    (and it is not a super over), a delivery bowled by the player with all
    three counting 1; the batting balls-faced count (strike-rate
    denominator) excludes wides only: a delivery with [extras_wides <> 0]
    (or NULL) never counts, while a main-innings delivery faced by the
    batter with [extras_wides = 0] counts 1 whether or not it is a no-ball. *)
Theorem legal_ball_counts (p : string) (d : Deliveries.row) (ds : list Deliveries.row) :
  (Deliveries.extras_wides d <> Some 0 \/ Deliveries.extras_noballs d <> Some 0 ->
     Stats.balls_bowled_legal p (d :: ds) = Stats.balls_bowled_legal p ds) /\
  (Deliveries.bowler_id d = Some p -> Deliveries.super_over d = Some 0 ->
   Deliveries.extras_wides d = Some 0 -> Deliveries.extras_noballs d = Some 0 ->
     Stats.balls_bowled_legal p (d :: ds) = 1 + Stats.balls_bowled_legal p ds) /\
  (Deliveries.extras_wides d <> Some 0 ->
     Stats.balls_faced p (d :: ds) = Stats.balls_faced p ds) /\
  (Deliveries.batter_id d = Some p -> Deliveries.super_over d = Some 0 ->
   Deliveries.extras_wides d = Some 0 ->
     Stats.balls_faced p (d :: ds) = 1 + Stats.balls_faced p ds).
Proof.
  assert (Hp : Stats.is_id (Some p) p = true)
    by (unfold Stats.is_id, Sql.eq_s; now rewrite String.eqb_refl).
  unfold Stats.balls_bowled_legal, Stats.balls_faced. split; [|split; [|split]].
  - intros H. cbn [filter]. destruct (Stats.is_id (Deliveries.bowler_id d) p); [|reflexivity].
    cbn [map]. rewrite StatsFacts.sum_z_cons, StatsFacts.case_when_not_T; [reflexivity|].
    rewrite !StatsFacts.and3_T, !StatsFacts.eq_z_0_T. tauto.
  - intros Hb Hs Hw Hn. cbn [filter]. rewrite Hb, Hp. cbn [map].
    unfold Stats.sum_z. cbn [fold_right]. rewrite Hs, Hw, Hn. reflexivity.
  - intros H. cbn [filter].
    destruct (Stats.is_id (Deliveries.batter_id d) p || Stats.is_id (Deliveries.non_striker_id d) p);
      [|reflexivity].
    cbn [map]. rewrite StatsFacts.sum_z_cons, StatsFacts.case_when_not_T; [reflexivity|].
    rewrite !StatsFacts.and3_T, !StatsFacts.eq_z_0_T. tauto.
  - intros Hb Hs Hw. cbn [filter]. rewrite Hb, Hp. cbn [orb map].
    unfold Stats.sum_z. cbn [fold_right]. unfold Sql.eq_s at 1. rewrite Hs, Hw, Hb.
    rewrite String.eqb_refl. reflexivity.
Qed.

Lemma legal_ball_counts_witness :
  Stats.balls_faced "p_bat" [Examples.noball_row; Examples.dot_row]
    = 1 + Stats.balls_faced "p_bat" [Examples.dot_row] /\
  Stats.balls_bowled_legal "p_bowl" [Examples.noball_row; Examples.dot_row]
    = Stats.balls_bowled_legal "p_bowl" [Examples.dot_row] /\
  Stats.balls_faced "p_bat" [Examples.wide_row; Examples.dot_row]
    = Stats.balls_faced "p_bat" [Examples.dot_row] /\
  Stats.balls_bowled_legal "p_bowl" [Examples.dot_row; Examples.wide_row]
    = 1 + Stats.balls_bowled_legal "p_bowl" [Examples.wide_row].
Proof.
  split; [|split; [|split]].
  - apply (proj2 (proj2 (proj2 (legal_ball_counts "p_bat" Examples.noball_row [Examples.dot_row]))));
      reflexivity.
  - apply (proj1 (legal_ball_counts "p_bowl" Examples.noball_row [Examples.dot_row])).
    right. discriminate.
  - apply (proj1 (proj2 (proj2 (legal_ball_counts "p_bat" Examples.wide_row [Examples.dot_row])))).
    discriminate.
  - apply (proj1 (proj2 (legal_ball_counts "p_bowl" Examples.dot_row [Examples.wide_row])));
      reflexivity.
Defined.

(** ** Instances at concrete inputs *)

Lemma update_missing_matches_inserts_missing_witness :
  exists s', Recon.update_missing_matches (Recon.mk_state [Examples.db_a] [])
                                          [Examples.icc_a; Examples.icc_c] = Done s' /\
    Recon.match_summary s' = [Examples.db_a] /\
    In Examples.icc_c (Recon.missing_matches s').
Proof.
  destruct (update_missing_matches_inserts_missing (Recon.mk_state [Examples.db_a] [])
              [Examples.icc_a; Examples.icc_c]) as [s' [H1 [H2 [H3 _]]]];
    [discriminate|reflexivity|].
  exists s'. split; [exact H1|]. split; [exact H2|]. apply H3. split.
  - vm_compute. right; left; reflexivity.
  - intros [b [[<-|[]] [Hd _]]]. discriminate Hd.
Defined.

Lemma handle_icc_duplicates_keeps_first_witness :
  find (fun x => Z.eqb (Recon.Icc.icc_id x) 1)
       [Examples.icc_a; Examples.icc_a_dup; Examples.icc_c] = Some Examples.icc_a /\
  In Examples.icc_a (fst (Recon.handle_icc_duplicates
                            [Examples.icc_a; Examples.icc_a_dup; Examples.icc_c])) /\
  In 1 (snd (Recon.handle_icc_duplicates [Examples.icc_a; Examples.icc_a_dup; Examples.icc_c])).
Proof.
  destruct (handle_icc_duplicates_keeps_first [Examples.icc_a; Examples.icc_a_dup; Examples.icc_c])
    as [_ [_ [H3 H4]]].
  split; [|split].
  - refine (H3 Examples.icc_a _). vm_compute. left; reflexivity.
  - vm_compute. left; reflexivity.
  - apply H4. vm_compute. constructor.
Defined.

Lemma identify_missing_matches_diagnostics_witness :
  In (Recon.NationMismatch "A" "B" "2024-03-01" "X" "Z")
     (snd (Recon.identify_missing_matches [Examples.icc_a] [Examples.db_a_other_nation])) /\
  Recon.Icc.venue_nation Examples.icc_a <> Recon.Db.venue_nation Examples.db_a_other_nation.
Proof.
  destruct (identify_missing_matches_diagnostics [Examples.icc_a] [Examples.db_a_other_nation])
    as [_ [_ [_ [H4 _]]]].
  apply (H4 Examples.icc_a Examples.db_a_other_nation).
  - split; [left; reflexivity|]. intros b [<-|[]] [_ [_ [_ [_ Hv]]]]. discriminate Hv.
  - left; reflexivity.
  - vm_compute. reflexivity.
Defined.

(** ** Helper lemmas for the JSON access, the extractors and the loader *)

Module JsonFacts.
Import Json.

Lemma split1_app_dot (p q : string) :
  split1 (p ++ String "." q) = (fst (split1 p), snd (split1 p) ++ split_dot q).
Proof.
  induction p as [|c p IH]; simpl.
  - unfold split_dot. destruct (split1 q). reflexivity.
  - rewrite IH. destruct (split1 p) as [w ws]. simpl.
    destruct (Ascii.eqb c "."); reflexivity.
Qed.

Lemma split_dot_app (p q : string) :
  split_dot (p ++ "." ++ q) = split_dot p ++ split_dot q.
Proof.
  unfold split_dot at 1. simpl (("." ++ q)%string). rewrite split1_app_dot.
  unfold split_dot. destruct (split1 p). reflexivity.
Qed.

Lemma split_dot_cons (s : string) : exists k ks, split_dot s = k :: ks.
Proof. unfold split_dot. destruct (split1 s). eauto. Qed.

Lemma split1_no_dot (s : string) :
  Extract.has_dot s = false -> split1 s = (s, []).
Proof.
  unfold Extract.has_dot. induction s as [|c s IH]; cbn [existsb list_ascii_of_string split1];
    [reflexivity|].
  intros H. apply orb_false_iff in H as [Hc Hs]. rewrite IH by exact Hs.
  rewrite Ascii.eqb_sym, Hc. reflexivity.
Qed.

Lemma split_dot_no_dot (s : string) : Extract.has_dot s = false -> split_dot s = [s].
Proof. intros H. unfold split_dot. rewrite split1_no_dot by exact H. reflexivity. Qed.

Lemma split1_dot (s : string) :
  Extract.has_dot s = true ->
  snd (split1 s) <> [] /\ (String.length (fst (split1 s)) < String.length s)%nat.
Proof.
  unfold Extract.has_dot. induction s as [|c s IH]; cbn [existsb list_ascii_of_string split1];
    [discriminate|].
  destruct (split1 s) as [w ws] eqn:E. rewrite Ascii.eqb_sym.
  destruct (Ascii.eqb c ".") eqn:Hc; cbn [fst snd orb String.length].
  - intros _. split; [discriminate|lia].
  - intros H. destruct (IH H) as [H1 H2]. simpl in *. split; [exact H1|lia].
Qed.

Lemma split_dot_dot (s : string) :
  Extract.has_dot s = true ->
  exists a b rest, split_dot s = a :: b :: rest /\ a <> s.
Proof.
  intros H. destruct (split1_dot s H) as [H1 H2]. unfold split_dot.
  destruct (split1 s) as [w ws]. simpl in *. destruct ws as [|b rest]; [congruence|].
  exists w, b, rest. split; [reflexivity|]. intros ->. lia.
Qed.

(** The step of [walk] on one key, with the default passed in. *)
Definition step (current : json) (key : string) : option json :=
  match current with
  | JDict kvs => Some (dict_get kvs key)
  | JList xs => match py_int key with Some i => list_index xs i | None => None end
  | _ => None
  end.

Lemma walk_cons (key : string) (keys : list string) (current default : json) :
  walk (key :: keys) current default =
  match step current key with
  | None | Some JNull => default
  | Some v => walk keys v default
  end.
Proof. reflexivity. Qed.

Lemma walk_default_or_value (keys : list string) (current default : json) :
  (keys <> [] \/ current <> JNull) ->
  walk keys current default = default \/ walk keys current default <> JNull.
Proof.
  revert current. induction keys as [|k ks IH]; intros current H.
  - simpl. destruct H as [H|H]; [congruence|now right].
  - rewrite walk_cons. destruct (step current k) as [[| | | | | |]|]; try (left; reflexivity);
      apply IH; right; discriminate.
Qed.

Lemma walk_app (ks1 ks2 : list string) (current default : json) :
  ks1 <> [] ->
  walk (ks1 ++ ks2) current default =
  match walk ks1 current JNull with
  | JNull => default
  | v => walk ks2 v default
  end.
Proof.
  revert current. induction ks1 as [|k ks IH]; intros current H; [congruence|].
  simpl app. rewrite !walk_cons.
  destruct (step current k) as [v|]; [|reflexivity].
  destruct ks as [|k' ks'].
  - simpl. destruct v; reflexivity.
  - rewrite IH by discriminate. destruct v; reflexivity.
Qed.

End JsonFacts.

Module ExtractFacts.
Import Deliveries Ingest Extract.

Lemma powerplay_end_late (inn : inning_json) (idx : Z) :
  2 <= idx -> powerplay_end inn idx = Py.Ok (0, 0).
Proof. intros H. unfold powerplay_end. destruct (Z.leb_spec 2 idx); [reflexivity|lia]. Qed.

Lemma generate_from_raise (reg : registry) (mid : string) (i : Z) (inns : list inning_json)
    (e : Py.exn) :
  generate_from reg mid i inns = Py.Raise e ->
  exists n inn, nth_error inns n = Some inn /\ powerplay_end inn (i + Z.of_nat n) = Py.Raise e.
Proof.
  revert i. induction inns as [|inn rest IH]; intros i; simpl; [discriminate|].
  destruct (powerplay_end inn i) as [[po pb]|e'] eqn:Hp.
  - destruct (generate_from reg mid (i + 1) rest) as [rs|e'] eqn:Hg; [discriminate|].
    intros He. injection He as <-. destruct (IH (i + 1) Hg) as [n [inn' [Hn Hpp]]].
    exists (S n), inn'. split; [exact Hn|]. rewrite <- Hpp. f_equal. lia.
  - intros He. injection He as <-. exists O, inn. split; [reflexivity|].
    rewrite Z.add_0_r. exact Hp.
Qed.

Lemma generate_from_ok (reg : registry) (mid : string) (i : Z) (inns : list inning_json) :
  (forall n inn, nth_error inns n = Some inn -> i + Z.of_nat n < 2 ->
     exists p, powerplay_end inn (i + Z.of_nat n) = Py.Ok p) ->
  exists rows, generate_from reg mid i inns = Py.Ok rows.
Proof.
  revert i. induction inns as [|inn rest IH]; intros i H; simpl; [eauto|].
  assert (Hp : exists p, powerplay_end inn i = Py.Ok p).
  { destruct (Z.ltb_spec i 2).
    - destruct (H O inn eq_refl) as [p Hp]; [lia|]. rewrite Z.add_0_r in Hp. eauto.
    - exists (0, 0). apply powerplay_end_late. lia. }
  destruct Hp as [[po pb] Hp]. rewrite Hp.
  destruct (IH (i + 1)) as [rs Hrs].
  { intros n inn' Hn Hlt. destruct (H (S n) inn' Hn) as [p Hp']; [lia|].
    exists p. rewrite <- Hp'. f_equal. lia. }
  rewrite Hrs. eauto.
Qed.

Lemma in_enum_from {A : Type} (n : Z) (xs : list A) (k : Z) (x : A) :
  In (k, x) (enum_from n xs) -> n <= k.
Proof.
  revert n. induction xs as [|y ys IH]; intros n; simpl; [tauto|].
  intros [H|H]; [injection H as <- _; lia|]. apply IH in H. lia.
Qed.

Lemma length_enum_from {A : Type} (n : Z) (xs : list A) : length (enum_from n xs) = length xs.
Proof. revert n. induction xs; intros n; simpl; auto. Qed.

(** Where a generated row comes from. *)
Lemma generate_from_rows (reg : registry) (mid : string) (i : Z) (inns : list inning_json)
    (rows : list delivery_dict) :
  generate_from reg mid i inns = Py.Ok rows -> 0 <= i ->
  forall r, In r rows ->
  exists i' j k po pb inn d, i <= i' /\ 0 <= j /\ 0 <= k /\
    r = extract_delivery_dict reg mid (in_team inn) i' j k po pb d /\
    (2 <= i' -> po = 0 /\ pb = 0).
Proof.
  revert i rows. induction inns as [|inn rest IH]; intros i rows; simpl.
  - intros H _ r Hr. injection H as <-. destruct Hr.
  - destruct (powerplay_end inn i) as [[po pb]|e] eqn:Hp; [|discriminate].
    destruct (generate_from reg mid (i + 1) rest) as [rs|e] eqn:Hg; [|discriminate].
    intros H Hi r Hr. injection H as <-. apply in_app_or in Hr as [Hr|Hr].
    + unfold innings_rows in Hr. apply in_flat_map in Hr as [[j over] [Hj Hr]].
      unfold over_rows in Hr. apply in_map_iff in Hr as [[k d] [Hr Hk]].
      exists i, j, k, po, pb, inn, d. split; [lia|]. split; [exact (in_enum_from _ _ _ _ Hj)|].
      split; [exact (in_enum_from _ _ _ _ Hk)|]. split; [now rewrite Hr|].
      intros H2. rewrite powerplay_end_late in Hp by exact H2. now injection Hp.
    + destruct (IH (i + 1) rs Hg ltac:(lia) r Hr)
        as [i' [j [k [po' [pb' [inn' [d [H1 [H2 [H3 [H4 H5]]]]]]]]]]].
      exists i', j, k, po', pb', inn', d. split; [lia|]. auto.
Qed.

Lemma pk_eqb_pk (r s : row) : pk_eqb r s = true -> pk r = pk s.
Proof.
  unfold pk_eqb, pk. rewrite !andb_true_iff. intros [[[Hm Hi] Ho] Hb].
  apply String.eqb_eq in Hm.
  destruct (innings r), (innings s), (overs r), (overs s), (balls r), (balls s);
    simpl in *; try discriminate.
  apply Z.eqb_eq in Hi, Ho, Hb. congruence.
Qed.

Lemma pk_distinct_of_nodup (rs : list row) : NoDup (map pk rs) -> pk_distinct rs = true.
Proof.
  induction rs as [|r rest IH]; simpl; [reflexivity|]. intros H. inversion H as [|x y Hn Hnd]; subst.
  rewrite IH by exact Hnd. rewrite andb_true_r, negb_true_iff, <- not_true_iff_false.
  intros Hex. apply existsb_exists in Hex as [s [Hs He]]. apply Hn.
  rewrite (pk_eqb_pk _ _ He). now apply in_map.
Qed.

Lemma pk_distinct_app (l1 l2 : list row) :
  pk_distinct (l1 ++ l2) =
  pk_distinct l1 && pk_distinct l2 && forallb (fun r => negb (existsb (pk_eqb r) l2)) l1.
Proof.
  induction l1 as [|r rest IH]; simpl; [now rewrite andb_true_r|].
  rewrite IH, existsb_app, negb_orb.
  destruct (existsb (pk_eqb r) rest), (existsb (pk_eqb r) l2), (pk_distinct rest),
    (pk_distinct l2), (forallb _ rest); reflexivity.
Qed.

Lemma map_flat_map' {A B C : Type} (f : B -> C) (g : A -> list B) (l : list A) :
  map f (flat_map g l) = flat_map (fun x => map f (g x)) l.
Proof. induction l; simpl; [reflexivity|]. now rewrite map_app, IHl. Qed.

(** Blocks tagged by increasing positions have no common element. *)
Lemma nodup_tagged_blocks {A B : Type} (f : Z -> A -> list B) (tag : B -> Z) (n : Z)
    (xs : list A) :
  (forall k x b, In b (f k x) -> tag b = k) -> (forall k x, NoDup (f k x)) ->
  NoDup (flat_map (fun '(k, x) => f k x) (enum_from n xs)).
Proof.
  intros Htag Hnd. revert n. induction xs as [|x xs IH]; intros n; simpl; [constructor|].
  apply NoDup_app; [apply Hnd|apply IH|].
  intros b Hb Hb'. apply in_flat_map in Hb' as [[k y] [Hk Hb']].
  apply in_enum_from in Hk. apply Htag in Hb, Hb'. lia.
Qed.

Lemma innings_rows_nodup (reg : registry) (mid : string) (i : Z) (inn : inning_json) (po pb : Z) :
  NoDup (map (fun r => pk (dict_row r)) (innings_rows reg mid i inn po pb)).
Proof.
  unfold innings_rows. rewrite map_flat_map'.
  assert (E : forall p : Z * list delivery_json,
    map (fun r => pk (dict_row r))
        (let '(j, over) := p in over_rows reg mid (in_team inn) i j po pb over) =
    (fun '(j, over) => map (fun r => pk (dict_row r))
                           (over_rows reg mid (in_team inn) i j po pb over)) p)
    by (intros [j over]; reflexivity).
  rewrite (flat_map_ext _ _ E).
  apply (nodup_tagged_blocks _ (fun '(_, _, o, _) => match o with Some v => v - 1 | None => 0 end)).
  - intros j over b Hb. unfold over_rows in Hb. rewrite map_map in Hb.
    apply in_map_iff in Hb as [[k d] [<- _]]. simpl. lia.
  - intros j over. unfold over_rows. rewrite map_map.
    assert (E2 : forall l : list (Z * delivery_json),
      map (fun x => pk (dict_row
             (let '(k, d) := x in extract_delivery_dict reg mid (in_team inn) i j k po pb d))) l =
      flat_map (fun '(k, d) => [pk (extract_delivery reg mid (in_team inn) i j k po pb d)]) l).
    { induction l as [|[k d] l IHl]; simpl; [reflexivity|]. now rewrite IHl. }
    rewrite E2.
    apply (nodup_tagged_blocks _ (fun '(_, _, _, b) => match b with Some v => v - 1 | None => 0 end)).
    + intros k d b [<-|[]]. simpl. lia.
    + intros k d. constructor; [intros []|constructor].
Qed.

Lemma generate_from_nodup (reg : registry) (mid : string) (i : Z) (inns : list inning_json)
    (rows : list delivery_dict) :
  generate_from reg mid i inns = Py.Ok rows -> 0 <= i -> NoDup (map (fun r => pk (dict_row r)) rows).
Proof.
  revert i rows. induction inns as [|inn rest IH]; intros i rows; simpl.
  - intros H _. injection H as <-. constructor.
  - destruct (powerplay_end inn i) as [[po pb]|e] eqn:Hp; [|discriminate].
    destruct (generate_from reg mid (i + 1) rest) as [rs|e] eqn:Hg; [|discriminate].
    intros H Hi. injection H as <-. rewrite map_app. apply NoDup_app.
    + apply innings_rows_nodup.
    + exact (IH (i + 1) rs Hg ltac:(lia)).
    + intros key Hk Hk'. apply in_map_iff in Hk as [r [<- Hr]].
      apply in_map_iff in Hk' as [r' [Hpk Hr']].
      destruct (generate_from_rows _ _ _ _ _ Hg ltac:(lia) r' Hr')
        as [i' [j [k [po' [pb' [inn' [d [H1 [_ [_ [-> _]]]]]]]]]]].
      unfold innings_rows in Hr. apply in_flat_map in Hr as [[j0 over] [_ Hr]].
      unfold over_rows in Hr. apply in_map_iff in Hr as [[k0 d0] [<- _]].
      unfold pk in Hpk. simpl in Hpk. injection Hpk; intros; lia.
Qed.

Lemma generate_from_length (reg : registry) (mid : string) (i : Z) (inns : list inning_json)
    (rows : list delivery_dict) :
  generate_from reg mid i inns = Py.Ok rows ->
  length rows = list_sum (map (fun inn => list_sum (map (@length _) (in_overs inn))) inns).
Proof.
  revert i rows. induction inns as [|inn rest IH]; intros i rows; simpl.
  - intros H. injection H as <-. reflexivity.
  - destruct (powerplay_end inn i) as [[po pb]|e]; [|discriminate].
    destruct (generate_from reg mid (i + 1) rest) as [rs|e] eqn:Hg; [|discriminate].
    intros H. injection H as <-. rewrite length_app, (IH _ _ Hg). f_equal.
    unfold innings_rows. generalize 0. induction (in_overs inn) as [|o os IHo]; intros z;
      simpl; [reflexivity|].
    rewrite length_app, IHo. unfold over_rows. rewrite length_map, length_enum_from. reflexivity.
Qed.

Lemma generate_from_blocks (reg : registry) (mid : string) (i : Z) (inns : list inning_json)
    (rows : list delivery_dict) :
  generate_from reg mid i inns = Py.Ok rows ->
  exists blocks, rows = concat blocks /\ length blocks = length inns /\
    forall n blk inn, nth_error blocks n = Some blk -> nth_error inns n = Some inn ->
      exists po pb, (2 <= i + Z.of_nat n -> po = 0 /\ pb = 0) /\
        blk = innings_rows reg mid (i + Z.of_nat n) inn po pb.
Proof.
  revert i rows. induction inns as [|inn rest IH]; intros i rows; simpl.
  - intros H. injection H as <-. exists []. split; [reflexivity|]. split; [reflexivity|].
    intros n blk inn H. destruct n; discriminate.
  - destruct (powerplay_end inn i) as [[po pb]|e] eqn:Hp; [|discriminate].
    destruct (generate_from reg mid (i + 1) rest) as [rs|e] eqn:Hg; [|discriminate].
    intros H. injection H as <-. destruct (IH (i + 1) rs Hg) as [bs [-> [Hl Hb]]].
    exists (innings_rows reg mid i inn po pb :: bs). split; [reflexivity|].
    split; [simpl; lia|].
    intros [|n] blk inn' Hblk Hinn; simpl in Hblk, Hinn.
    + injection Hblk as <-. injection Hinn as <-. exists po, pb. split.
      * intros H2. rewrite powerplay_end_late in Hp by lia. now injection Hp.
      * now rewrite Z.add_0_r.
    + destruct (Hb n blk inn' Hblk Hinn) as [po' [pb' [H1 H2]]]. exists po', pb'.
      replace (i + Z.of_nat (S n)) with (i + 1 + Z.of_nat n) by lia. auto.
Qed.

Lemma innings_rows_length (reg : registry) (mid : string) (i : Z) (inn : inning_json)
    (po pb : Z) :
  length (innings_rows reg mid i inn po pb) = list_sum (map (@length _) (in_overs inn)).
Proof.
  unfold innings_rows. generalize 0. induction (in_overs inn) as [|o os IHo]; intros z;
    simpl; [reflexivity|].
  rewrite length_app, IHo. unfold over_rows. rewrite length_map, length_enum_from. reflexivity.
Qed.

Lemma innings_rows_fields (reg : registry) (mid : string) (i : Z) (inn : inning_json)
    (po pb : Z) (r : delivery_dict) :
  In r (innings_rows reg mid i inn po pb) ->
  innings (dict_row r) = Some (i + 1) /\
  super_over (dict_row r) = Some (if 2 <=? i then 1 else 0) /\
  (po = 0 /\ pb = 0 -> powerplay (dict_row r) = Some 0).
Proof.
  unfold innings_rows. intros Hr. apply in_flat_map in Hr as [[j over] [Hj Hr]].
  unfold over_rows in Hr. apply in_map_iff in Hr as [[k d] [<- Hk]].
  apply in_enum_from in Hj. apply in_enum_from in Hk. simpl.
  split; [reflexivity|]. split; [reflexivity|].
  intros [-> ->]. destruct (Z.ltb_spec j 0); [lia|]. destruct (Z.eqb_spec j 0); simpl; [|reflexivity].
  destruct (Z.leb_spec (k + 1) 0); [lia|reflexivity].
Qed.

End ExtractFacts.

Module JsonFacts2.
Import Json.
Lemma gnv_compose (data : json) (p q : string) (default : json) :
  get_nested_value data (p ++ "." ++ q) default =
  match get_nested_value data p JNull with
  | JNull => default
  | v => get_nested_value v q default
  end.
Proof.
  unfold get_nested_value. rewrite JsonFacts.split_dot_app.
  apply JsonFacts.walk_app. destruct (JsonFacts.split_dot_cons p) as [k [ks ->]]. discriminate.
Qed.
End JsonFacts2.

Module PlayersFacts.
Import Json.

Lemma dict_get_str (kvs : list (string * json)) (k : string) :
  Forall (fun kv => exists s, snd kv = JStr s) kvs ->
  dict_get kvs k = JNull \/ exists s, dict_get kvs k = JStr s.
Proof.
  induction kvs as [|[k' v] rest IH]; simpl; [now left|]. intros H. inversion H as [|x y Hv Hr]; subst.
  destruct (String.eqb k' k); [right; exact Hv|]. apply IH, Hr.
Qed.

Lemma dotted_lookup_null (data : json) (n : string) (kvs : list (string * json)) :
  Extract.has_dot n = true ->
  get_nested_value data "info.registry.people" JNull = JDict kvs ->
  Forall (fun kv => exists s, snd kv = JStr s) kvs ->
  get_nested_value data ("info.registry.people." ++ n) JNull = JNull.
Proof.
  intros Hd Hp Hs.
  change ("info.registry.people." ++ n)%string with ("info.registry.people" ++ "." ++ n)%string.
  rewrite JsonFacts2.gnv_compose, Hp. unfold get_nested_value.
  destruct (JsonFacts.split_dot_dot n Hd) as [a [b [rest [-> _]]]].
  rewrite JsonFacts.walk_cons. cbn [JsonFacts.step].
  destruct (dict_get_str kvs a Hs) as [-> | [s ->]]; reflexivity.
Qed.

End PlayersFacts.

Module PipelineFacts.
Import Pipeline.

Lemma chars_app (s1 s2 : string) :
  list_ascii_of_string (s1 ++ s2) = list_ascii_of_string s1 ++ list_ascii_of_string s2.
Proof. induction s1; simpl; [reflexivity|]. now rewrite IHs1. Qed.

Lemma rfind_from_app (c : ascii) (l1 l2 : list ascii) (i : nat) (best : Z) :
  rfind_from c (l1 ++ l2) i best = rfind_from c l2 (i + length l1) (rfind_from c l1 i best).
Proof.
  revert i best. induction l1 as [|x l1 IH]; intros i best; simpl.
  - now rewrite Nat.add_0_r.
  - rewrite IH. f_equal. lia.
Qed.

Lemma rfind_from_absent (c : ascii) (l : list ascii) (i : nat) (best : Z) :
  ~ In c l -> rfind_from c l i best = best.
Proof.
  revert i. induction l as [|x l IH]; intros i H; simpl; [reflexivity|].
  destruct (Ascii.eqb_spec x c) as [->|Hne]; [exfalso; apply H; now left|].
  apply IH. intros Hin. apply H. now right.
Qed.

Lemma string_length_app (s1 s2 : string) :
  String.length (s1 ++ s2) = (String.length s1 + String.length s2)%nat.
Proof. induction s1; simpl; auto. Qed.

Lemma substring_suffix (s t : string) :
  substring (String.length s) (String.length t) (s ++ t) = t.
Proof.
  induction s as [|c s IH]; simpl; [|exact IH].
  induction t as [|c t IH]; simpl; [reflexivity|]. now rewrite IH.
Qed.

Lemma substring_prefix (s t : string) : substring 0 (String.length s) (s ++ t) = s.
Proof. induction s as [|c s IH]; simpl; [now destruct t|]. now rewrite IH. Qed.

Lemma removesuffix_json (stem : string) : Gate.removesuffix (stem ++ ".json") ".json" = stem.
Proof.
  unfold Gate.removesuffix. rewrite string_length_app.
  replace (String.length stem + String.length ".json" - String.length ".json")%nat
    with (String.length stem) by lia.
  rewrite substring_suffix, String.eqb_refl, substring_prefix.
  replace (Nat.leb (String.length ".json") (String.length stem + String.length ".json")) with true
    by (symmetry; apply Nat.leb_le; lia).
  reflexivity.
Qed.

Lemma firstn_length_app {A : Type} (l1 l2 : list A) : firstn (length l1) (l1 ++ l2) = l1.
Proof. induction l1; simpl; [reflexivity|]. now rewrite IHl1. Qed.

Lemma splitext_json (stem : string) :
  ~ In "/"%char (list_ascii_of_string stem) ->
  splitext_root (stem ++ ".json") =
  if existsb (fun c => negb (Ascii.eqb c ".")) (list_ascii_of_string stem)
  then stem else (stem ++ ".json")%string.
Proof.
  intros Hs. unfold splitext_root. rewrite chars_app. unfold rfind.
  rewrite !rfind_from_app, (rfind_from_absent "/" (list_ascii_of_string stem) 0 (-1) Hs).
  set (n := length (list_ascii_of_string stem)).
  set (b := rfind_from "." (list_ascii_of_string stem) 0 (-1)).
  change (rfind_from "/" (list_ascii_of_string ".json") (0 + n) (-1)) with (-1).
  change (rfind_from "." (list_ascii_of_string ".json") (0 + n) b) with (Z.of_nat (0 + n)).
  destruct (Z.ltb_spec (-1) (Z.of_nat (0 + n))); [|lia].
  change (Z.to_nat (-1 + 1)) with O. rewrite Nat2Z.id. simpl (skipn 0 _).
  replace (0 + n - 0)%nat with n by lia. simpl (0 + n)%nat. unfold n.
  rewrite !firstn_length_app, string_of_list_ascii_of_string. reflexivity.
Qed.

Lemma run_files_app {D R : Type} (parse : string -> Py.outcome D)
    (prep : D -> string -> Py.outcome unit) (rest : D -> string -> R -> R * option Py.exn)
    (st : db R) (l1 l2 : list (string * string)) :
  run_files parse prep rest st (l1 ++ l2) =
  match run_files parse prep rest st l1 with
  | (st', None) => run_files parse prep rest st' l2
  | (st', Some e) => (st', Some e)
  end.
Proof.
  revert st. induction l1 as [|f fs IH]; intros st; simpl; [reflexivity|].
  destruct (process_file parse prep rest st f) as [st' [e|]].
  - destruct (Py.caught e); [apply IH|reflexivity].
  - apply IH.
Qed.

Lemma run_files_incl {D R : Type} (parse : string -> Py.outcome D)
    (prep : D -> string -> Py.outcome unit) (rest : D -> string -> R -> R * option Py.exn)
    (st : db R) (files : list (string * string)) :
  incl (matches st) (matches (fst (run_files parse prep rest st files))).
Proof.
  revert st. induction files as [|f fs IH]; intros st; simpl; [apply incl_refl|].
  assert (Hp : incl (matches st) (matches (fst (process_file parse prep rest st f)))).
  { unfold process_file. destruct (parse (snd f)) as [d|e]; [|apply incl_refl].
    destruct (prep d (splitext_root (fst f))); [|apply incl_refl].
    destruct (str_in _ _); [apply incl_refl|]. destruct (rest _ _ _). simpl.
    apply incl_appl, incl_refl. }
  destruct (process_file parse prep rest st f) as [st' [e|]] eqn:E; simpl in Hp.
  - destruct (Py.caught e); [|exact Hp]. eapply incl_tran; [exact Hp|apply IH].
  - eapply incl_tran; [exact Hp|apply IH].
Qed.

End PipelineFacts.

Module BacklogFacts.
Import Recon.

Lemma identify_nil (db_df : list Db.row) : fst (identify_missing_matches [] db_df) = [].
Proof. destruct db_df; reflexivity. Qed.

Lemma missing_nodup (icc_df : list Icc.row) (db_df : list Db.row) :
  NoDup (map Icc.icc_id (fst (identify_missing_matches (fst (handle_icc_duplicates icc_df)) db_df))).
Proof.
  destruct db_df as [|b bs]; [apply DedupFacts.handle_icc_duplicates_nodup|].
  rewrite MergeFacts.identify_missing_fst by discriminate.
  apply MergeFacts.filter_keeps_key_nodup, DedupFacts.handle_icc_duplicates_nodup.
Qed.

Lemma nodup_app_common {A : Type} (l1 l2 : list A) (x : A) :
  NoDup (l1 ++ l2) -> In x l1 -> In x l2 -> False.
Proof.
  induction l1 as [|y l1 IH]; simpl; [tauto|]. intros H [->|Hx] Hx2; inversion H; subst.
  - apply H2. apply in_or_app. now right.
  - now apply IH.
Qed.

(** The step, once the frame is non-empty. *)
Lemma update_unfold (s : state) (icc_df : list Icc.row) :
  update_missing_matches s icc_df =
  let missing := fst (identify_missing_matches (fst (handle_icc_duplicates icc_df)) (match_summary s)) in
  match missing with
  | [] => Done s
  | _ :: _ =>
      match insert_missing_matches (missing_matches s) missing with
      | Done t => Done (mk_state (match_summary s) t)
      | BuildError => BuildError
      end
  end.
Proof.
  unfold update_missing_matches. destruct icc_df as [|x xs]; [|reflexivity].
  simpl. unfold handle_icc_duplicates. simpl. rewrite identify_nil. reflexivity.
Qed.

End BacklogFacts.

(** ** Properties of the extractors, the loader and the queries *)

(** [get_nested_value] returns [None] only as its default: its result is the default or a non-null value, and on null, boolean, number or string data it is always the default. *)
Theorem get_nested_value_null_only_as_default (data : Json.json) (path : string)
    (default : Json.json) :
  (Json.get_nested_value data path default = default \/
   Json.get_nested_value data path default <> Json.JNull) /\
  Json.get_nested_value Json.JNull path default = default /\
  (forall b, Json.get_nested_value (Json.JBool b) path default = default) /\
  (forall n, Json.get_nested_value (Json.JInt n) path default = default) /\
  (forall r, Json.get_nested_value (Json.JFloat r) path default = default) /\
  (forall s, Json.get_nested_value (Json.JStr s) path default = default).
Proof.
  unfold Json.get_nested_value. destruct (JsonFacts.split_dot_cons path) as [k [ks E]].
  rewrite E. split; [apply JsonFacts.walk_default_or_value; left; discriminate|].
  repeat split; reflexivity.
Qed.

(** A dotted path [p.q] looks up [q] in the value found at [p]; when [p] leads nowhere or to null, the default comes back. *)
Theorem get_nested_value_compose (data : Json.json) (p q : string) (default : Json.json) :
  Json.get_nested_value data (p ++ "." ++ q) default =
  match Json.get_nested_value data p Json.JNull with
  | Json.JNull => default
  | v => Json.get_nested_value v q default
  end.
Proof.
  unfold Json.get_nested_value. rewrite JsonFacts.split_dot_app.
  apply JsonFacts.walk_app. destruct (JsonFacts.split_dot_cons p) as [k [ks ->]]. discriminate.
Qed.

(** On a dict, a key without a dot is a plain lookup with null mapped to the default; a key with a dot is never looked up as such, so a binding of that key has no effect. *)
Theorem get_nested_value_dict_key (kvs : list (string * Json.json)) (key : string)
    (default : Json.json) :
  (Extract.has_dot key = false ->
   Json.get_nested_value (Json.JDict kvs) key default =
   match Json.dict_get kvs key with Json.JNull => default | v => v end) /\
  (Extract.has_dot key = true -> forall v,
   Json.get_nested_value (Json.JDict ((key, v) :: kvs)) key default =
   Json.get_nested_value (Json.JDict kvs) key default).
Proof.
  split; intros H; unfold Json.get_nested_value.
  - rewrite JsonFacts.split_dot_no_dot by exact H. simpl. destruct (Json.dict_get kvs key); reflexivity.
  - intros v. destruct (JsonFacts.split_dot_dot key H) as [a [b [rest [E Hne]]]]. rewrite E.
    rewrite !JsonFacts.walk_cons. cbn [JsonFacts.step Json.dict_get].
    destruct (String.eqb key a) eqn:Ek; [apply String.eqb_eq in Ek; congruence|]. reflexivity.
Qed.

(** On a list, a key parsed by [int()] indexes it the Python way: a non-negative index in range, a negative one counted from the end, and any out-of-range index gives the default. *)
Theorem get_nested_value_list_index (xs : list Json.json) (key : string) (default : Json.json) :
  Extract.has_dot key = false ->
  let n := Z.of_nat (length xs) in
  match Json.py_int key with
  | None => Json.get_nested_value (Json.JList xs) key default = default
  | Some i =>
      (0 <= i < n -> Json.get_nested_value (Json.JList xs) key default =
                     match nth (Z.to_nat i) xs Json.JNull with Json.JNull => default | v => v end) /\
      (- n <= i < 0 -> Json.get_nested_value (Json.JList xs) key default =
                     match nth (Z.to_nat (n + i)) xs Json.JNull with
                     | Json.JNull => default | v => v end) /\
      (i < - n \/ n <= i -> Json.get_nested_value (Json.JList xs) key default = default)
  end.
Proof.
  intros H n. unfold Json.get_nested_value.
  rewrite JsonFacts.split_dot_no_dot by exact H. rewrite JsonFacts.walk_cons.
  unfold JsonFacts.step. destruct (Json.py_int key) as [i|]; [|reflexivity].
  unfold Json.list_index. fold n.
  assert (Hnth : forall m, (m < length xs)%nat ->
    match nth_error xs m with
    | None | Some Json.JNull => default
    | Some v => Json.walk [] v default
    end = match nth m xs Json.JNull with Json.JNull => default | v => v end).
  { intros m Hm. rewrite nth_error_nth' with (d := Json.JNull) by exact Hm. destruct (nth m xs Json.JNull); reflexivity. }
  split; [|split]; intros Hi.
  - destruct (Z.ltb_spec i 0); [lia|]. destruct (Z.leb_spec 0 i); [|lia].
    destruct (Z.ltb_spec i n); [|lia]. simpl. apply Hnth. unfold n in *. lia.
  - destruct (Z.ltb_spec i 0); [|lia]. destruct (Z.leb_spec 0 (n + i)); [|lia].
    destruct (Z.ltb_spec (n + i) n); [|lia]. simpl. apply Hnth. unfold n in *. lia.
  - destruct (Z.ltb_spec i 0).
    + destruct (Z.leb_spec 0 (n + i)); [lia|reflexivity].
    + destruct (Z.leb_spec 0 i); [|reflexivity]. destruct (Z.ltb_spec i n); [lia|reflexivity].
Qed.

(** [_powerplay] gives [(0, 0)] from the third innings on; before that a missing powerplay raises KeyError, and its to value yields [(over, ball)] exactly when it splits at dots into two integers, ValueError otherwise. *)
Theorem powerplay_end_cases (inn : Extract.inning_json) (idx : Z) :
  (2 <= idx -> Extract.powerplay_end inn idx = Py.Ok (0, 0)) /\
  (idx < 2 -> Extract.in_pp_to inn = None -> Extract.powerplay_end inn idx = Py.Raise Py.KeyError) /\
  (forall s, idx < 2 -> Extract.in_pp_to inn = Some s ->
     (forall o k, Extract.powerplay_end inn idx = Py.Ok (o, k) <->
        exists a b, Json.split_dot s = [a; b] /\ Json.py_int a = Some o /\ Json.py_int b = Some k) /\
     (forall e, Extract.powerplay_end inn idx = Py.Raise e -> e = Py.ValueError)).
Proof.
  unfold Extract.powerplay_end. split; [|split].
  - intros H. destruct (Z.leb_spec 2 idx); [reflexivity|lia].
  - intros H Hn. destruct (Z.leb_spec 2 idx); [lia|]. rewrite Hn. reflexivity.
  - intros s H Hs. destruct (Z.leb_spec 2 idx); [lia|]. rewrite Hs.
    destruct (Extract.has_dot s) eqn:Hd; simpl.
    + destruct (Json.split_dot s) as [|a [|b [|c rest]]]; split;
        try (intros e He; congruence); try (intros o k; split; [discriminate|];
        intros [a' [b' [Habs _]]]; discriminate Habs).
      * intros o k. destruct (Json.py_int a) eqn:Ha, (Json.py_int b) eqn:Hb; split;
          try discriminate; try (intros [a' [b' [Habs [H1 H2]]]]; injection Habs as <- <-; congruence).
        intros Heq. injection Heq as <- <-. eauto.
      * intros e. destruct (Json.py_int a), (Json.py_int b); congruence.
    + rewrite JsonFacts.split_dot_no_dot by exact Hd. split; [|congruence].
      intros o k. split; [discriminate|]. intros [a [b [Habs _]]]. discriminate Habs.
Qed.

(** The deliveries extractor raises only the error of the powerplay of the first or second innings; when both parse it returns rows, and a first innings without powerplay makes it raise KeyError. *)
Theorem deliveries_generate_df_raises (m : Extract.match_json) (mid : string) :
  (forall e, Extract.generate_df m mid = Py.Raise e ->
     exists n inn, (n < 2)%nat /\ nth_error (Extract.mj_innings m) n = Some inn /\
       Extract.powerplay_end inn (Z.of_nat n) = Py.Raise e) /\
  ((forall n inn, (n < 2)%nat -> nth_error (Extract.mj_innings m) n = Some inn ->
      exists p, Extract.powerplay_end inn (Z.of_nat n) = Py.Ok p) ->
   exists rows, Extract.generate_df m mid = Py.Ok rows) /\
  (forall inn rest, Extract.mj_innings m = inn :: rest -> Extract.in_pp_to inn = None ->
     Extract.generate_df m mid = Py.Raise Py.KeyError).
Proof.
  unfold Extract.generate_df. split; [|split].
  - intros e H. destruct (ExtractFacts.generate_from_raise _ _ _ _ _ H) as [n [inn [Hn Hp]]].
    exists n, inn. rewrite Z.add_0_l in Hp. split; [|split; assumption].
    destruct (Nat.lt_ge_cases n 2) as [Hlt|Hge]; [exact Hlt|].
    rewrite ExtractFacts.powerplay_end_late in Hp by lia. discriminate.
  - intros H. apply ExtractFacts.generate_from_ok. intros n inn Hn Hlt.
    rewrite Z.add_0_l. apply (H n inn); [lia|exact Hn].
  - intros inn rest E Hn. rewrite E. simpl. unfold Extract.powerplay_end at 1. rewrite Hn.
    reflexivity.
Qed.

(** On success, the deliveries extractor returns one row per delivery, each
    with the given match id, and no two with the same primary key. *)
Theorem deliveries_generate_df_rows (m : Extract.match_json) (mid : string)
    (rows : list Ingest.delivery_dict) :
  Extract.generate_df m mid = Py.Ok rows ->
  length rows = list_sum (map (fun inn => list_sum (map (@length _) (Extract.in_overs inn)))
                              (Extract.mj_innings m)) /\
  Forall (fun r => Deliveries.match_id (Ingest.dict_row r) = mid) rows /\
  Deliveries.pk_distinct (map Ingest.dict_row rows) = true.
Proof.
  unfold Extract.generate_df. intros H.
  assert (Hshape := ExtractFacts.generate_from_rows _ _ _ _ _ H (Z.le_refl 0)).
  split; [exact (ExtractFacts.generate_from_length _ _ _ _ _ H)|].
  split.
  - apply Forall_forall. intros r Hr.
    destruct (Hshape r Hr) as [i [j [k [po [pb [inn [d [_ [_ [_ [-> _]]]]]]]]]]]. reflexivity.
  - apply ExtractFacts.pk_distinct_of_nodup. rewrite map_map.
    exact (ExtractFacts.generate_from_nodup _ _ _ _ _ H (Z.le_refl 0)).
Qed.

(** The extractor's rows come in one block per innings, in innings order:
    block [n] has one row per delivery of innings [n], each with innings
    number [n + 1] and [super_over] 1 exactly when [n >= 2]; the rows of the
    third innings on are outside the powerplay. *)
Theorem deliveries_super_over_rows (m : Extract.match_json) (mid : string)
    (rows : list Ingest.delivery_dict) :
  Extract.generate_df m mid = Py.Ok rows ->
  exists blocks, rows = concat blocks /\ length blocks = length (Extract.mj_innings m) /\
  forall n blk inn, nth_error blocks n = Some blk -> nth_error (Extract.mj_innings m) n = Some inn ->
    length blk = list_sum (map (@length _) (Extract.in_overs inn)) /\
    Forall (fun r => Deliveries.innings (Ingest.dict_row r) = Some (Z.of_nat n + 1) /\
                     Deliveries.super_over (Ingest.dict_row r) =
                       Some (if 2 <=? Z.of_nat n then 1 else 0) /\
                     ((2 <= n)%nat -> Deliveries.powerplay (Ingest.dict_row r) = Some 0)) blk.
Proof.
  unfold Extract.generate_df. intros H.
  destruct (ExtractFacts.generate_from_blocks _ _ _ _ _ H) as [bs [Hc [Hl Hb]]].
  exists bs. split; [exact Hc|]. split; [exact Hl|].
  intros n blk inn Hblk Hinn. destruct (Hb n blk inn Hblk Hinn) as [po [pb [Hpp ->]]].
  rewrite Z.add_0_l in *. split; [apply ExtractFacts.innings_rows_length|].
  apply Forall_forall. intros r Hr.
  destruct (ExtractFacts.innings_rows_fields _ _ _ _ _ _ _ Hr) as [H1 [H2 H3]].
  split; [exact H1|]. split; [exact H2|]. intros Hn. apply H3, Hpp. lia.
Qed.

(** [DeliveriesLoader.load_deliveries] never stores a row: its INSERT names
    the column [fielder_missing], which [CREATE TABLE deliveries] does not
    declare, so every non-empty frame raises [BuildError]; an empty frame
    leaves the table as it is. *)
Theorem load_deliveries_never_stores (tm : list (string * string)) (tbl : list Deliveries.row)
    (df : list Ingest.delivery_dict) :
  In "fielder_missing"%string Ingest.db_columns /\
  ~ In "fielder_missing"%string Ingest.deliveries_columns /\
  Ingest.load_deliveries tm tbl df = match df with [] => Done tbl | _ :: _ => BuildError end.
Proof.
  split; [simpl; tauto|]. split; [simpl; intuition discriminate|].
  destruct df as [|d ds]; [reflexivity|]. unfold Ingest.load_deliveries.
  rewrite LoadFacts.columns_undeclared. reflexivity.
Qed.

(** Within an innings the powerplay flag is monotone: if a delivery is in the powerplay, so is every delivery at an earlier or equal (over, ball) position. *)
Theorem extract_delivery_powerplay_prefix (reg : Ingest.registry) (mid : string)
    (team : option string) (i j k j' k' po pb : Z) (d d' : Ingest.delivery_json) :
  (j' < j \/ (j' = j /\ k' <= k)) ->
  Deliveries.powerplay (Ingest.extract_delivery reg mid team i j k po pb d) = Some 1 ->
  Deliveries.powerplay (Ingest.extract_delivery reg mid team i j' k' po pb d') = Some 1.
Proof.
  intros Hord. simpl.
  destruct (Z.ltb_spec j po), (Z.eqb_spec j po), (Z.leb_spec (k + 1) pb); simpl;
    try discriminate; intros _;
    destruct (Z.ltb_spec j' po), (Z.eqb_spec j' po), (Z.leb_spec (k' + 1) pb); simpl;
    try reflexivity; lia.
Qed.

(** A player whose name contains a dot is never found in the registry by the players extractor, whatever the registry holds, so their row is dropped. *)
Theorem players_dotted_name_dropped (data : Json.json) (mid : string) (sx : Json.json)
    (team n : string) (names : list string) (kvs : list (string * Json.json)) :
  Extract.has_dot n = true ->
  Json.get_nested_value data "info.registry.people" Json.JNull = Json.JDict kvs ->
  Forall (fun kv => exists s, snd kv = Json.JStr s) kvs ->
  Json.get_nested_value data ("info.registry.people." ++ n) Json.JNull = Json.JNull /\
  Players.team_rows data mid sx team names =
  Players.team_rows data mid sx team (filter (fun x => negb (String.eqb x n)) names).
Proof.
  intros Hd Hp Hs. assert (Hn := PlayersFacts.dotted_lookup_null data n kvs Hd Hp Hs).
  split; [exact Hn|]. unfold Players.team_rows.
  induction names as [|x xs IH]; [reflexivity|]. cbn [flat_map filter].
  destruct (String.eqb_spec x n) as [->|Hne]; cbn [negb flat_map].
  - rewrite Hn. exact IH.
  - now rewrite IH.
Qed.

(** Penalty runs are attributed by comparing the innings team with the first team name: when the first innings is batted by the other team, its penalties go to the second-innings total of the summary and vice versa. *)
Theorem penalties_follow_team1_name (team1 t2 : string) (a b : Summary.inning_info)
    (mid : string) (ds : list Deliveries.row) :
  team1 <> ""%string -> t2 <> ""%string -> t2 <> team1 ->
  Summary.ii_team a = Some t2 -> Summary.ii_team b = Some team1 ->
  let pens x := Ingest.or_zero (Summary.ii_pre x) + Ingest.or_zero (Summary.ii_post x) in
  Summary.extract_pens (Some team1) [a; b] = (pens b, pens a) /\
  Summary.runs_1st_innings mid ds (fst (Summary.extract_pens (Some team1) [a; b])) =
  Summary.runs_1st_innings mid ds 0 + pens b /\
  Summary.runs_2nd_innings mid ds (snd (Summary.extract_pens (Some team1) [a; b])) =
  Summary.runs_2nd_innings mid ds 0 + pens a.
Proof.
  intros H1 H2 H3 Ha Hb pens.
  assert (E : Summary.extract_pens (Some team1) [a; b] = (pens b, pens a)).
  { unfold Summary.extract_pens. cbn [nth_error]. unfold Summary.add_pens. rewrite Ha, Hb.
    destruct (String.eqb_spec t2 ""); [congruence|]. destruct (String.eqb_spec team1 ""); [congruence|].
    simpl. destruct (String.eqb_spec t2 team1); [congruence|]. rewrite String.eqb_refl.
    unfold pens. f_equal; lia. }
  rewrite E. split; [reflexivity|]. unfold Summary.runs_1st_innings, Summary.runs_2nd_innings,
    Summary.innings_runs. simpl. split; lia.
Qed.

(** For loaded rows, the balls-bowled count of a bowler is the number of rows they bowled, wides, no-balls and super-over deliveries included. *)
Theorem balls_bowled_counts_every_delivery (p : string) (tm : list (string * string))
    (ds : list Deliveries.row) :
  Stats2.balls_bowled p (map (Ingest.load_row tm) ds) =
  Z.of_nat (length (filter (fun d => Stats.is_id (Deliveries.bowler_id d) p) ds)).
Proof.
  unfold Stats2.balls_bowled. f_equal. induction ds as [|d ds IH]; simpl; [reflexivity|].
  destruct (Stats.is_id (Deliveries.bowler_id d) p); simpl; [|exact IH].
  destruct (Sql.eq_z (Deliveries.super_over d) 0); simpl; f_equal; exact IH.
Qed.

(** The run-out count of a batter goes up by one on a main-innings delivery where they are the first player out and the second dismissal is a run out, whoever was run out. *)
Theorem run_out_counts_partner_run_out (p : string) (d : Deliveries.row)
    (ds : list Deliveries.row) :
  Deliveries.batter_id d = Some p -> Deliveries.player_out_id d = Some p ->
  Deliveries.how_out2 d = Some "run out"%string -> Deliveries.super_over d = Some 0 ->
  Stats2.run_out p (d :: ds) = 1 + Stats2.run_out p ds.
Proof.
  intros Hb Hp Hh Hs. unfold Stats2.run_out. simpl filter.
  assert (Hid : Stats.is_id (Deliveries.batter_id d) p = true)
    by (rewrite Hb; unfold Stats.is_id, Sql.eq_s; now rewrite String.eqb_refl).
  rewrite Hid. simpl orb. cbn [map]. unfold Stats.sum_z. cbn [fold_right]. f_equal.
  unfold Stats2.in2. rewrite Hp, Hh, Hs. unfold Sql.eq_s at 1. rewrite String.eqb_refl.
  simpl. destruct (Sql.eq_s (Deliveries.how_out d) "run out"), (Sql.eq_s (Deliveries.player_out2_id d) p);
    reflexivity.
Qed.

(** The loader's match id, the root of [os.path.splitext], agrees with the gate's [removesuffix] on a [stem.json] name, unless the stem is all dots. *)
Theorem splitext_root_vs_removesuffix (stem : string) :
  ~ In "/"%char (list_ascii_of_string stem) ->
  Gate.removesuffix (stem ++ ".json") ".json" = stem /\
  Pipeline.splitext_root (stem ++ ".json") =
  if existsb (fun c => negb (Ascii.eqb c ".")) (list_ascii_of_string stem)
  then stem else (stem ++ ".json")%string.
Proof.
  intros Hs. split; [apply PipelineFacts.removesuffix_json|exact (PipelineFacts.splitext_json stem Hs)].
Qed.

(** A file whose match id is fresh and whose parsing and preparation succeed has its match id recorded, even when a later step raises, and is then skipped by the gate. *)
Theorem load_cricsheet_match_kept {D R : Type} (parse : string -> Py.outcome D)
    (prep : D -> string -> Py.outcome unit) (rest : D -> string -> R -> R * option Py.exn)
    (st : Pipeline.db R) (pre post : list (string * string)) (f : string * string)
    (stem : string) (data : D) :
  snd (Pipeline.run_files parse prep rest st pre) = None ->
  fst f = (stem ++ ".json")%string ->
  ~ In "/"%char (list_ascii_of_string stem) ->
  existsb (fun c => negb (Ascii.eqb c ".")) (list_ascii_of_string stem) = true ->
  parse (snd f) = Py.Ok data -> prep data stem = Py.Ok tt ->
  ~ In stem (Pipeline.matches (fst (Pipeline.run_files parse prep rest st pre))) ->
  let final := fst (Pipeline.run_files parse prep rest st (pre ++ f :: post)) in
  In stem (Pipeline.matches final) /\
  incl (Pipeline.matches st) (Pipeline.matches final) /\
  Gate.get_files_to_process (Pipeline.matches final) [f] = [].
Proof.
  intros Hpre Hf Hs Hnd Hparse Hprep Hfresh final.
  assert (Hid : Pipeline.splitext_root (fst f) = stem)
    by (rewrite Hf, (PipelineFacts.splitext_json stem Hs), Hnd; reflexivity).
  assert (Hin : In stem (Pipeline.matches final)).
  { unfold final. rewrite PipelineFacts.run_files_app.
    destruct (Pipeline.run_files parse prep rest st pre) as [st1 e1] eqn:E1. simpl in Hpre.
    subst e1. simpl in Hfresh. simpl.
    unfold Pipeline.process_file at 1. rewrite Hid, Hparse, Hprep.
    destruct (str_in_spec stem (Pipeline.matches st1)) as [Hx _].
    destruct (str_in stem (Pipeline.matches st1)); [exfalso; apply Hfresh, Hx; reflexivity|].
    destruct (rest data stem (Pipeline.others st1)) as [o [e|]].
    - destruct (Py.caught e).
      + apply (PipelineFacts.run_files_incl parse prep rest). simpl. apply in_or_app. right. now left.
      + simpl. apply in_or_app. right. now left.
    - apply (PipelineFacts.run_files_incl parse prep rest). simpl. apply in_or_app. right. now left. }
  split; [exact Hin|]. split; [apply PipelineFacts.run_files_incl|].
  unfold Gate.get_files_to_process. destruct f as [fn path]. simpl in Hf. subst fn. simpl.
  rewrite PipelineFacts.removesuffix_json.
  destruct (str_in_spec stem (Pipeline.matches final)) as [_ Hy]. rewrite (Hy Hin). reflexivity.
Qed.

(** [update_missing_matches] appends the newly missing matches to the backlog, and fails with a build error exactly when one of them already has its ICC id in the backlog. *)
Theorem update_missing_matches_backlog (s : Recon.state) (icc_df : list Recon.Icc.row) :
  NoDup (map Recon.Icc.icc_id (Recon.missing_matches s)) ->
  let missing := fst (Recon.identify_missing_matches (fst (Recon.handle_icc_duplicates icc_df))
                                                     (Recon.match_summary s)) in
  (Recon.update_missing_matches s icc_df = BuildError <->
   exists r, In r missing /\ In (Recon.Icc.icc_id r) (map Recon.Icc.icc_id (Recon.missing_matches s))) /\
  (forall s', Recon.update_missing_matches s icc_df = Done s' ->
   s' = Recon.mk_state (Recon.match_summary s) (Recon.missing_matches s ++ missing)).
Proof.
  intros Hbl missing. rewrite BacklogFacts.update_unfold. fold missing.
  assert (Hm : NoDup (map Recon.Icc.icc_id missing)) by apply BacklogFacts.missing_nodup.
  destruct missing as [|m ms] eqn:Em.
  - split; [split; [discriminate|intros [r [[] _]]]|].
    intros s' H. injection H as <-. rewrite app_nil_r. now destruct s.
  - unfold Recon.insert_missing_matches. rewrite map_app.
    destruct (Recon.nodupb (map Recon.Icc.icc_id (Recon.missing_matches s) ++
                            map Recon.Icc.icc_id (m :: ms))) eqn:Hn.
    + apply DedupFacts.nodupb_spec in Hn. split.
      * split; [discriminate|]. intros [r [Hr Hid]].
        exfalso. apply (BacklogFacts.nodup_app_common _ _ _ Hn Hid). now apply in_map.
      * intros s' H. injection H as <-. reflexivity.
    + split; [|discriminate]. split; [intros _|reflexivity].
      assert (Hnot : ~ NoDup (map Recon.Icc.icc_id (Recon.missing_matches s) ++
                              map Recon.Icc.icc_id (m :: ms))).
      { intros H. apply DedupFacts.nodupb_spec in H. congruence. }
      destruct (existsb (fun x => existsb (Z.eqb x) (map Recon.Icc.icc_id (m :: ms)))
                        (map Recon.Icc.icc_id (Recon.missing_matches s))) eqn:Hc.
      * apply existsb_exists in Hc as [x [Hx Hc]]. apply DedupFacts.existsb_Z_In in Hc.
        apply in_map_iff in Hc as [r [Hr Hrin]]. exists r. split; [exact Hrin|]. now rewrite Hr.
      * exfalso. apply Hnot. apply NoDup_app; [exact Hbl|exact Hm|].
        intros x Hx Hx2. assert (Hf : existsb (fun x => existsb (Z.eqb x) (map Recon.Icc.icc_id (m :: ms)))
                        (map Recon.Icc.icc_id (Recon.missing_matches s)) = true).
        { apply existsb_exists. exists x. split; [exact Hx|]. now apply DedupFacts.existsb_Z_In. }
        congruence.
Qed.

(** Running [update_missing_matches] a second time on the same ICC data after it found missing matches fails with a build error. *)
Theorem update_missing_matches_not_rerunnable (s s' : Recon.state) (icc_df : list Recon.Icc.row) :
  Recon.update_missing_matches s icc_df = Done s' ->
  fst (Recon.identify_missing_matches (fst (Recon.handle_icc_duplicates icc_df))
                                      (Recon.match_summary s)) <> [] ->
  Recon.update_missing_matches s' icc_df = BuildError.
Proof.
  rewrite !BacklogFacts.update_unfold. cbv zeta.
  destruct (fst (Recon.identify_missing_matches _ (Recon.match_summary s))) as [|m ms] eqn:Em;
    [intros _ H; congruence|].
  unfold Recon.insert_missing_matches.
  destruct (Recon.nodupb (map Recon.Icc.icc_id (Recon.missing_matches s ++ m :: ms))); [|discriminate].
  intros H _. injection H as <-. simpl Recon.match_summary. rewrite Em. simpl Recon.missing_matches.
  destruct (Recon.nodupb _) eqn:Hn; [|reflexivity].
  apply DedupFacts.nodupb_spec in Hn. exfalso. rewrite map_app in Hn.
  apply (BacklogFacts.nodup_app_common _ _ (Recon.Icc.icc_id m) Hn).
  - rewrite map_app. apply in_or_app. right. now left.
  - now left.
Qed.

(** ** Witnesses for the properties of the extractor, the loader and the queries *)

Lemma get_nested_value_dict_key_witness :
  Extract.has_dot "runs"%string = false /\
  Json.get_nested_value (Json.JDict [("runs"%string, Json.JInt 0)]) "runs"%string (Json.JInt 7) = Json.JInt 0 /\
  Extract.has_dot "a.b"%string = true /\
  Json.get_nested_value (Json.JDict [("a.b"%string, Json.JStr "x"%string)]) "a.b"%string (Json.JInt 7) = Json.JInt 7.
Proof.
  split; [reflexivity|]. split.
  - rewrite (proj1 (get_nested_value_dict_key [("runs"%string, Json.JInt 0)] "runs"%string (Json.JInt 7)) eq_refl).
    reflexivity.
  - split; [reflexivity|].
    rewrite (proj2 (get_nested_value_dict_key [] "a.b"%string (Json.JInt 7)) eq_refl (Json.JStr "x"%string)).
    reflexivity.
Defined.

Lemma get_nested_value_list_index_witness :
  Extract.has_dot "-1"%string = false /\
  Json.get_nested_value (Json.JList [Json.JInt 10; Json.JInt 20; Json.JInt 30]) "-1"%string Json.JNull =
  Json.JInt 30.
Proof.
  split; [reflexivity|].
  assert (H := get_nested_value_list_index [Json.JInt 10; Json.JInt 20; Json.JInt 30] "-1"%string
                 Json.JNull eq_refl).
  cbv zeta in H. change (Json.py_int "-1"%string) with (Some (-1)) in H.
  rewrite (proj1 (proj2 H)) by (simpl; lia). reflexivity.
Defined.

Lemma powerplay_end_cases_witness :
  Extract.powerplay_end (Extract.mk_inning None (Some "5.6"%string) []) 0 = Py.Ok (5, 6) /\
  Extract.powerplay_end (Extract.mk_inning None None []) 1 = Py.Raise Py.KeyError.
Proof.
  split.
  - apply (proj2 (proj1 (proj2 (proj2 (powerplay_end_cases
             (Extract.mk_inning None (Some "5.6"%string) []) 0)) "5.6"%string ltac:(lia) eq_refl) 5 6)).
    exists "5"%string, "6"%string. split; [reflexivity|]. split; reflexivity.
  - exact (proj1 (proj2 (powerplay_end_cases (Extract.mk_inning None None []) 1)) ltac:(lia) eq_refl).
Defined.

Lemma deliveries_generate_df_raises_witness :
  Extract.generate_df Examples.no_powerplay_match "m1"%string = Py.Raise Py.KeyError.
Proof.
  exact (proj2 (proj2 (deliveries_generate_df_raises Examples.no_powerplay_match "m1"%string))
           _ [] eq_refl eq_refl).
Defined.

Lemma deliveries_generate_df_rows_witness :
  let rows := match Extract.generate_df Examples.three_innings_match "m1"%string with
              | Py.Ok r => r | Py.Raise _ => [] end in
  Extract.generate_df Examples.three_innings_match "m1"%string = Py.Ok rows /\
  length rows = 5%nat /\ Deliveries.pk_distinct (map Ingest.dict_row rows) = true.
Proof.
  intros rows. assert (H : Extract.generate_df Examples.three_innings_match "m1"%string = Py.Ok rows)
    by (vm_compute; reflexivity).
  split; [exact H|].
  destruct (deliveries_generate_df_rows _ _ _ H) as [Hlen [_ Hpk]].
  split; [rewrite Hlen; reflexivity|exact Hpk].
Defined.

Lemma deliveries_super_over_rows_witness :
  let rows := match Extract.generate_df Examples.three_innings_match "m1"%string with
              | Py.Ok r => r | Py.Raise _ => [] end in
  Extract.generate_df Examples.three_innings_match "m1"%string = Py.Ok rows /\
  exists blocks, rows = concat blocks /\ length blocks = 3%nat /\
  forall n blk inn, nth_error blocks n = Some blk ->
    nth_error (Extract.mj_innings Examples.three_innings_match) n = Some inn ->
    length blk = list_sum (map (@length _) (Extract.in_overs inn)) /\
    Forall (fun r => Deliveries.innings (Ingest.dict_row r) = Some (Z.of_nat n + 1) /\
                     Deliveries.super_over (Ingest.dict_row r) =
                       Some (if 2 <=? Z.of_nat n then 1 else 0) /\
                     ((2 <= n)%nat -> Deliveries.powerplay (Ingest.dict_row r) = Some 0)) blk.
Proof.
  intros rows. assert (H : Extract.generate_df Examples.three_innings_match "m1"%string = Py.Ok rows)
    by (vm_compute; reflexivity).
  split; [exact H|]. exact (deliveries_super_over_rows _ _ _ H).
Defined.

Lemma extract_delivery_powerplay_prefix_witness :
  Deliveries.powerplay (Ingest.extract_delivery Examples.reg "m1"%string None 0 5 5 5 6
                          (Examples.plain_delivery "Bat"%string)) = Some 1 /\
  Deliveries.powerplay (Ingest.extract_delivery Examples.reg "m1"%string None 0 2 7 5 6
                          (Examples.plain_delivery "NS"%string)) = Some 1.
Proof.
  assert (H : Deliveries.powerplay (Ingest.extract_delivery Examples.reg "m1"%string None 0 5 5 5 6
                                      (Examples.plain_delivery "Bat"%string)) = Some 1)
    by reflexivity.
  split; [exact H|].
  exact (extract_delivery_powerplay_prefix _ _ _ 0 5 5 2 7 5 6 _ _ ltac:(lia) H).
Defined.

Lemma players_dotted_name_dropped_witness :
  Json.get_nested_value Examples.people_json "info.registry.people"%string Json.JNull =
    Json.JDict [("A. Smith"%string, Json.JStr "id_smith"%string); ("Bell"%string, Json.JStr "id_bell"%string)] /\
  Players.team_rows Examples.people_json "m1"%string (Json.JStr "male"%string) "Team A"%string ["A. Smith"%string; "Bell"%string] =
  Players.team_rows Examples.people_json "m1"%string (Json.JStr "male"%string) "Team A"%string ["Bell"%string].
Proof.
  assert (Hp : Json.get_nested_value Examples.people_json "info.registry.people"%string Json.JNull =
    Json.JDict [("A. Smith"%string, Json.JStr "id_smith"%string); ("Bell"%string, Json.JStr "id_bell"%string)])
    by reflexivity.
  split; [exact Hp|].
  refine (proj2 (players_dotted_name_dropped Examples.people_json "m1"%string (Json.JStr "male"%string) "Team A"%string
                   "A. Smith"%string ["A. Smith"%string; "Bell"%string] _ eq_refl Hp _)).
  repeat constructor; eexists; reflexivity.
Defined.

Lemma penalties_follow_team1_name_witness :
  Summary.extract_pens (Some "A"%string)
    [Summary.mk_inning_info (Some "B"%string) (Some 5) None;
     Summary.mk_inning_info (Some "A"%string) None (Some 2)] = (2, 5).
Proof.
  exact (proj1 (penalties_follow_team1_name "A"%string "B"%string
    (Summary.mk_inning_info (Some "B"%string) (Some 5) None)
    (Summary.mk_inning_info (Some "A"%string) None (Some 2)) "m1"%string []
    ltac:(discriminate) ltac:(discriminate) ltac:(discriminate) eq_refl eq_refl)).
Defined.

Lemma run_out_counts_partner_run_out_witness :
  Deliveries.accepts (Ingest.load_row [] Examples.retired_and_run_out_row) = true /\
  Stats2.run_out "p_bat"%string [Examples.retired_and_run_out_row] = 1.
Proof.
  split; [reflexivity|].
  exact (run_out_counts_partner_run_out "p_bat"%string Examples.retired_and_run_out_row []
           eq_refl eq_refl eq_refl eq_refl).
Defined.

Lemma splitext_root_vs_removesuffix_witness :
  Gate.removesuffix "m1.json"%string ".json"%string = "m1"%string /\
  Pipeline.splitext_root "m1.json"%string = "m1"%string /\
  Pipeline.splitext_root "..json"%string = "..json"%string.
Proof.
  assert (H1 := splitext_root_vs_removesuffix "m1"%string ltac:(simpl; intuition discriminate)).
  assert (H2 := splitext_root_vs_removesuffix "."%string ltac:(simpl; intuition discriminate)).
  split; [exact (proj1 H1)|]. split; [exact (proj2 H1)|exact (proj2 H2)].
Defined.

Lemma load_cricsheet_match_kept_witness :
  let final := fst (Pipeline.run_files Examples.unit_parse Examples.unit_prep Examples.count_rest (Pipeline.mk_db [] O)
                      ([("m0.json"%string, "d/m0.json"%string)] ++ ("m1.json"%string, "d/m1.json"%string) ::
                       [("m2.json"%string, "d/m2.json"%string)])) in
  In "m1"%string (Pipeline.matches final) /\
  Gate.get_files_to_process (Pipeline.matches final) [("m1.json"%string, "d/m1.json"%string)] = [].
Proof.
  intros final.
  destruct (load_cricsheet_match_kept Examples.unit_parse Examples.unit_prep Examples.count_rest (Pipeline.mk_db [] O)
              [("m0.json"%string, "d/m0.json"%string)] [("m2.json"%string, "d/m2.json"%string)]
              ("m1.json"%string, "d/m1.json"%string) "m1"%string tt
              eq_refl eq_refl ltac:(simpl; intuition discriminate) eq_refl eq_refl eq_refl
              ltac:(simpl; intuition discriminate)) as [H1 [_ H3]].
  split; [exact H1|exact H3].
Defined.

Lemma update_missing_matches_backlog_witness :
  Recon.update_missing_matches (Recon.mk_state [Examples.db_a] [Examples.icc_c])
    [Examples.icc_a; Examples.icc_c] = BuildError.
Proof.
  apply (proj2 (proj1 (update_missing_matches_backlog (Recon.mk_state [Examples.db_a] [Examples.icc_c])
                         [Examples.icc_a; Examples.icc_c]
                         ltac:(repeat constructor; simpl; tauto)))).
  exists Examples.icc_c. split; [vm_compute; tauto|simpl; tauto].
Defined.

Lemma update_missing_matches_not_rerunnable_witness :
  Recon.update_missing_matches (Recon.mk_state [Examples.db_a] []) [Examples.icc_a; Examples.icc_c] =
    Done (Recon.mk_state [Examples.db_a] [Examples.icc_c]) /\
  Recon.update_missing_matches (Recon.mk_state [Examples.db_a] [Examples.icc_c])
    [Examples.icc_a; Examples.icc_c] = BuildError.
Proof.
  assert (H : Recon.update_missing_matches (Recon.mk_state [Examples.db_a] [])
                [Examples.icc_a; Examples.icc_c] =
              Done (Recon.mk_state [Examples.db_a] [Examples.icc_c])) by (vm_compute; reflexivity).
  split; [exact H|].
  exact (update_missing_matches_not_rerunnable _ _ _ H ltac:(vm_compute; discriminate)).
Defined.
